(** * BotShield: the feature pipeline, embedded and checked

    Two batch stages are embedded here.

    - Stage A ([src/etl.py]): selected ids, user profiles and a line-oriented
      tweet stream are turned into one feature row per profile record.
    - Stage B ([src/augment_features.py]): the feature table is left-joined
      with a split table and a label table and cut into train/val/test.

    Python values read from JSON are the type [json]; a raised exception is
    the [Err] case of [result]; a Python set of integers is a [gset Z]; a
    pandas frame is the list of its rows, and a column that pandas holds as
    float64 is a [float] (IEEE binary64, the kernel's primitive floats).

    Limits of the embedding.  A character of a string is a code point
    below 256.  A timestamp is an instant, counted in nanoseconds since the
    epoch: time zones, and the refusal of pandas to subtract a zone-aware
    from a naive timestamp, are not modelled.  What the libraries do with
    cells outside the data model (a like count that is not an integer, a
    date that is neither a string nor null) is not modelled either: the
    embedding stops there with [Unmodelled].  Reading and writing files is
    reduced to the tables read and written. *)

From Stdlib Require Import ZArith String Ascii List Bool Sorted.
From Stdlib Require Import PrimFloat FloatOps SpecFloat DecimalString.
From stdpp Require Import base option list gmap strings.

Open Scope string_scope.
Open Scope Z_scope.

#[local] Set Warnings "-register-all".

(** ** Python values and exceptions *)

(** What [json.load] / [json.loads] can return.  [JNull] is Python's [None];
    an object keeps its members in order, and [dict_get] below reads the
    first binding of a key (the loader is expected to hand over one binding
    per key). *)
Inductive json : Type :=
  | JNull
  | JBool (b : bool)
  | JInt (n : Z)
  | JFloat (f : float)
  | JStr (s : string)
  | JArr (l : list json)
  | JObj (o : list (string * json)).

Inductive exn : Type :=
  | KeyError
  | TypeError
  | ValueError
  | AttributeError
  | OverflowError
  | Unmodelled.

Inductive result (A : Type) : Type :=
  | Ok (a : A)
  | Err (e : exn).
Arguments Ok {A} a.
Arguments Err {A} e.

Definition bind {A B} (m : result A) (f : A -> result B) : result B :=
  match m with Ok a => f a | Err e => Err e end.

Notation "'let!' x ':=' m 'in' k" := (bind m (fun x => k))
  (at level 10, x name, m at level 200, k at level 200).
Notation "'let!' ' p ':=' m 'in' k" := (bind m (fun p => k))
  (at level 10, p pattern, m at level 200, k at level 200).

Definition is_ok {A} (r : result A) : bool :=
  match r with Ok _ => true | Err _ => false end.

(** [for x in l: ...] where the body may raise: the first exception stops
    the loop. *)
Fixpoint for_each {A B} (f : A -> result B) (l : list A) : result (list B) :=
  match l with
  | [] => Ok []
  | x :: l' => let! y := f x in let! ys := for_each f l' in Ok (y :: ys)
  end.

(** ** Python strings *)

Definition code (c : ascii) : Z := Z.of_nat (nat_of_ascii c).

(** [str.isspace] on the code points below 256. *)
Definition is_space (c : ascii) : bool :=
  let n := code c in
  ((9 <=? n) && (n <=? 13)) || ((28 <=? n) && (n <=? 32))
  || (n =? 133) || (n =? 160).

Fixpoint lstrip (s : string) : string :=
  match s with
  | EmptyString => EmptyString
  | String c s' => if is_space c then lstrip s' else s
  end.

Fixpoint rstrip (s : string) : string :=
  match s with
  | EmptyString => EmptyString
  | String c s' =>
      match rstrip s' with
      | EmptyString => if is_space c then EmptyString else String c EmptyString
      | r => String c r
      end
  end.

(** [s.strip()] *)
Definition strip (s : string) : string := rstrip (lstrip s).

(** [s.endswith(c)] for a one-character [c]. *)
Fixpoint endswith (c : ascii) (s : string) : bool :=
  match s with
  | EmptyString => false
  | String a EmptyString => Ascii.eqb a c
  | String _ s' => endswith c s'
  end.

(** [s[:-1]] *)
Fixpoint drop_last (s : string) : string :=
  match s with
  | EmptyString => EmptyString
  | String _ EmptyString => EmptyString
  | String a s' => String a (drop_last s')
  end.

(** [s.replace(c, '')] for a one-character [c]: every occurrence goes. *)
Fixpoint remove_char (c : ascii) (s : string) : string :=
  match s with
  | EmptyString => EmptyString
  | String a s' =>
      if Ascii.eqb a c then remove_char c s' else String a (remove_char c s')
  end.

Definition digit_val (c : ascii) : option Z :=
  let n := code c in
  if (48 <=? n) && (n <=? 57) then Some (n - 48) else None.

(** Digits of a Python integer literal in base ten: single underscores may
    sit between digits.  [after_digit] says whether the previous character
    was a digit. *)
Fixpoint int_digits (after_digit : bool) (acc : Z) (s : string) : option Z :=
  match s with
  | EmptyString => if after_digit then Some acc else None
  | String c s' =>
      match digit_val c with
      | Some d => int_digits true (10 * acc + d) s'
      | None =>
          if Ascii.eqb c "_" && after_digit then int_digits false acc s'
          else None
      end
  end.

(** [int(s)] for a string: surrounding whitespace, an optional sign, digits.
    (The limit Python 3.11 puts on the number of digits is not modelled.) *)
Definition int_of_str (s : string) : option Z :=
  match strip s with
  | String "-" s' => Z.opp <$> int_digits false 0 s'
  | String "+" s' => int_digits false 0 s'
  | s' => int_digits false 0 s'
  end.

(** ** Floats *)

(** The binary64 nearest to an integer (what numpy and CPython do when an
    integer enters float arithmetic). *)
Definition float_of_Z (z : Z) : float :=
  SF2Prim (binary_normalize prec emax z 0 false).

(** [int(f)]: truncation towards zero. *)
Definition int_of_float (f : float) : result Z :=
  match Prim2SF f with
  | S754_zero _ => Ok 0
  | S754_infinity _ => Err OverflowError
  | S754_nan => Err ValueError
  | S754_finite sg m e =>
      let v := if 0 <=? e then Z.pos m * 2 ^ e else Z.pos m / 2 ^ (- e) in
      Ok (if sg then - v else v)
  end.

(** ** Python operations on loaded values *)

(** [int(x)] *)
Definition py_int (x : json) : result Z :=
  match x with
  | JInt n => Ok n
  | JBool b => Ok (if b then 1 else 0)
  | JFloat f => int_of_float f
  | JStr s => match int_of_str s with Some n => Ok n | None => Err ValueError end
  | JNull | JArr _ | JObj _ => Err TypeError
  end.

Fixpoint assoc (k : string) (o : list (string * json)) : option json :=
  match o with
  | [] => None
  | (k', v) :: o' => if String.eqb k k' then Some v else assoc k o'
  end.

(** [x[k]] with a string key. *)
Definition getitem (x : json) (k : string) : result json :=
  match x with
  | JObj o => match assoc k o with Some v => Ok v | None => Err KeyError end
  | _ => Err TypeError
  end.

(** [d.get(k)] on a dict: [None] when the key is missing. *)
Definition dict_get (o : list (string * json)) (k : string) : json :=
  default JNull (assoc k o).

(** [x.get(k, dflt)]; only a dict has the method. *)
Definition py_get (x : json) (k : string) (dflt : json) : result json :=
  match x with
  | JObj o => Ok (default dflt (assoc k o))
  | _ => Err AttributeError
  end.

(** [len(x)] *)
Definition py_len (x : json) : result Z :=
  match x with
  | JStr s => Ok (Z.of_nat (String.length s))
  | JArr l => Ok (Z.of_nat (length l))
  | JObj o => Ok (Z.of_nat (length o))
  | JNull | JBool _ | JInt _ | JFloat _ => Err TypeError
  end.

(** A number as a float, for [/]; [None] for what is not a number. *)
Definition as_float (x : json) : option float :=
  match x with
  | JInt n => Some (float_of_Z n)
  | JBool b => Some (float_of_Z (if b then 1 else 0))
  | JFloat f => Some f
  | _ => None
  end.

(** [x > 0] *)
Definition py_gt0 (x : json) : result bool :=
  match x with
  | JInt n => Ok (0 <? n)
  | JBool b => Ok b
  | JFloat f => Ok (PrimFloat.ltb 0%float f)
  | _ => Err TypeError
  end.

(** [x / y] on numbers, [y] not zero.  Both operands are taken to binary64
    first, which is Python's quotient as long as integer operands are below
    2^53 in size. *)
Definition py_truediv (x y : json) : result float :=
  match as_float x, as_float y with
  | Some a, Some b => Ok (PrimFloat.div a b)
  | _, _ => Err TypeError
  end.

(** [x is None], [x is True] *)
Definition is_None (x : json) : bool :=
  match x with JNull => true | _ => false end.
Definition is_True (x : json) : bool :=
  match x with JBool true => true | _ => false end.

(** ** pandas *)

(** [pd.isna] on a cell that came from JSON. *)
Definition isna (x : json) : bool :=
  match x with
  | JNull => true
  | JFloat f => PrimFloat.is_nan f
  | _ => false
  end.

(** [left.merge(right, how='left')]: every left row, in order, paired with
    each right row whose key matches it, in the right table's order; a left
    row without a match is kept once with the right columns missing. *)
Definition merge_left {L R} (matches : L -> R -> bool)
    (left : list L) (right : list R) : list (L * option R) :=
  flat_map (fun l =>
    match List.filter (matches l) right with
    | [] => [(l, None)]
    | ms => List.map (fun r => (l, Some r)) ms
    end) left.

(** An int64 sum wraps around. *)
Definition wrap64 (z : Z) : Z := (z + 2 ^ 63) mod 2 ^ 64 - 2 ^ 63.

Definition Zsum (l : list Z) : Z := fold_right Z.add 0 l.

(** The keys of [groupby]: each key once, ascending. *)
Fixpoint insert_key (k : Z) (l : list Z) : list Z :=
  match l with
  | [] => [k]
  | x :: l' =>
      if k <? x then k :: l
      else if k =? x then l
      else x :: insert_key k l'
  end.

Definition group_keys (ids : list Z) : list Z := fold_right insert_key [] ids.

(** [Series.max()] of a datetime column: NaT cells are skipped, and the
    answer is NaT when nothing is left. *)
Definition ts_max (l : list (option Z)) : option Z :=
  fold_right (fun x acc =>
    match x, acc with
    | Some a, Some b => Some (Z.max a b)
    | Some a, None => Some a
    | None, _ => acc
    end) None l.

(** ** Stage A: [src/etl.py] *)

Module Etl.

(** One dict of [users_data]. *)
Record user_row : Type := {
  u_user_id : Z;
  u_profile_completeness_score : Z;
  u_follower_following_ratio : float;
  u_user_created_at : json }.

(** One dict of [csv_rows], a row of the intermediate table. *)
Record tweet_row : Type := {
  t_user_id : Z;
  t_tweet_id : json;
  t_tweet_text : json;
  t_created_at : json;
  t_like_count : json;
  t_reply_count : json }.

(** One row of [tweet_features], after the renaming of its columns. *)
Record tweet_feature : Type := {
  g_user_id : Z;
  g_total_likes_received : Z;
  g_total_replies_received : Z;
  g_avg_tweet_text_length : float;
  g_obs_tweet_count : Z }.

(** One row of [final_df] with all the columns it has at the end.  A date
    is a number of nanoseconds since the epoch, [None] is NaT; an age of
    [None] is NaN.  The two totals and the count are kept as the integers
    they are (pandas holds them as int64, or as float64 once some user has
    no tweets). *)
Record final_row : Type := {
  user_id : Z;
  profile_completeness_score : Z;
  follower_following_ratio : float;
  user_created_at : json;
  total_likes_received : Z;
  total_replies_received : Z;
  avg_tweet_text_length : float;
  obs_tweet_count : Z;
  user_created_at_dt : option Z;
  account_age_days : option Z;
  avg_tweets_per_day : float }.

(** One row of [output_df]: the index and [feature_columns] in order. *)
Record feature_row : Type := {
  o_user_id : Z;
  o_profile_completeness_score : Z;
  o_total_likes_received : Z;
  o_total_replies_received : Z;
  o_avg_tweets_per_day : float;
  o_avg_tweet_text_length : float;
  o_follower_following_ratio : float }.

(** What a run that completes has written: the intermediate table (written
    before the aggregation starts), the final frame with its working
    columns, and the table written to [final_features.csv]. *)
Record outputs : Type := {
  intermediate : list tweet_row;
  final_df : list final_row;
  output_df : list feature_row }.

(** Lines 14-17: the selected ids as a set of integers. *)
Definition load_selected_ids (selected_ids_list : list json) : result (gset Z) :=
  let! ids := for_each py_int selected_ids_list in
  Ok (list_to_set ids).

(** Lines 40-58: the profile completeness score of one user dict. *)
Definition completeness (u : list (string * json)) : result Z :=
  let score := 0 in
  let score := if is_True (dict_get u "verified") then score + 1 else score in
  let desc := dict_get u "description" in
  let! score :=
    (if is_None desc then Ok score
     else
       let score := score + 1 in
       let! n := py_len desc in
       Ok (if 0 <? n then score + 1 else score)) in
  let score :=
    if is_None (dict_get u "profile_image_url") then score else score + 1 in
  let score := if is_None (dict_get u "location") then score else score + 1 in
  Ok score.

(** Lines 61-68: followers over following, [0.0] when nobody is followed. *)
Definition follower_ratio (u : list (string * json)) : result float :=
  let! metrics := py_get (JObj u) "public_metrics" (JObj []) in
  let! followers := py_get metrics "followers_count" (JInt 0) in
  let! following := py_get metrics "following_count" (JInt 0) in
  let! follows := py_gt0 following in
  if (follows : bool) then py_truediv followers following else Ok 0%float.

(** Lines 27-79: the body of the loop over [all_users]; [None] when the
    user is not selected.  ([u['id']] has asked for a dict before [u.get]
    is called, so the last case is never reached.) *)
Definition user_step (selected_ids : gset Z) (u : json) : result (option user_row) :=
  let! id := getitem u "id" in
  let! uid := py_int id in
  if bool_decide (uid ∈ selected_ids) then
    match u with
    | JObj o =>
        let! score := completeness o in
        let! ratio := follower_ratio o in
        Ok (Some {| u_user_id := uid;
                    u_profile_completeness_score := score;
                    u_follower_following_ratio := ratio;
                    u_user_created_at := dict_get o "created_at" |})
    | _ => Err AttributeError
    end
  else Ok None.

Definition users_loop (selected_ids : gset Z) (all_users : list json)
    : result (list user_row) :=
  let! rows := for_each (user_step selected_ids) all_users in
  Ok (omap id rows).

Definition day_ns : Z := 86400 * 10 ^ 9.

(** The integer cells pandas sums: an int64 column. *)
Definition int64_cell (x : json) : result Z :=
  match x with
  | JInt n => if (- 2 ^ 63 <=? n) && (n <? 2 ^ 63) then Ok n else Err Unmodelled
  | _ => Err Unmodelled
  end.

(** Line 160: [fillna("")] then [len]. *)
Definition text_len (x : json) : result Z :=
  py_len (if isna x then JStr "" else x).

Section Run.

(** What the run takes from outside the repository: [json.loads] on one
    line ([None] for [JSONDecodeError]), [pd.to_datetime] on one timestamp
    string, and the clock. *)
Variable json_loads : string -> option json.
Variable to_datetime : string -> result (option Z).
Variable now : Z.

(** Lines 90-101.  The returned [JNull] is Python's [None]. *)
Definition parse_line (line : string) : json :=
  let line := strip line in
  let line := if endswith "," line then drop_last line else line in
  if String.eqb line "[" || String.eqb line "]" then JNull
  else
    match json_loads line with
    | Some v => v
    | None => JNull
    end.

(** Lines 106-131: the body of the loop over the lines; [None] when the
    line adds no row. *)
Definition tweet_step (selected_ids : gset Z) (line : string)
    : result (option tweet_row) :=
  let tweet := parse_line line in
  if is_None tweet then Ok None
  else
    let! a := getitem tweet "author_id" in
    let! author_id := py_int a in
    if bool_decide (author_id ∈ selected_ids) then
      let! metrics := py_get tweet "public_metrics" (JObj []) in
      let! like_count := py_get metrics "like_count" JNull in
      let like_count := if is_None like_count then JInt 0 else like_count in
      let! reply_count := py_get metrics "reply_count" JNull in
      let reply_count := if is_None reply_count then JInt 0 else reply_count in
      let! tid := getitem tweet "id" in
      let! text := getitem tweet "text" in
      let! created := getitem tweet "created_at" in
      Ok (Some {| t_user_id := author_id;
                  t_tweet_id := tid;
                  t_tweet_text := text;
                  t_created_at := created;
                  t_like_count := like_count;
                  t_reply_count := reply_count |})
    else Ok None.

Definition tweets_loop (selected_ids : gset Z) (lines : list string)
    : result (list tweet_row) :=
  let! rows := for_each (tweet_step selected_ids) lines in
  Ok (omap id rows).

(** [pd.to_datetime] on one cell of a column: [None] gives NaT, a string
    is parsed; other cells are not modelled. *)
Definition cell_datetime (x : json) : result (option Z) :=
  match x with
  | JNull => Ok None
  | JStr s => to_datetime s
  | _ => Err Unmodelled
  end.

(** Lines 163-175: one group of the [groupby], aggregated.  The rows carry
    their [text_len]. *)
Definition aggregate (k : Z) (rows : list (tweet_row * Z)) : result tweet_feature :=
  let g := List.filter (fun r => t_user_id r.1 =? k) rows in
  let! likes := for_each (fun r => int64_cell (t_like_count r.1)) g in
  let! replies := for_each (fun r => int64_cell (t_reply_count r.1)) g in
  Ok {| g_user_id := k;
        g_total_likes_received := wrap64 (Zsum likes);
        g_total_replies_received := wrap64 (Zsum replies);
        g_avg_tweet_text_length :=
          PrimFloat.div (float_of_Z (Zsum (List.map snd g)))
                        (float_of_Z (Z.of_nat (length g)));
        g_obs_tweet_count :=
          Z.of_nat (length (List.filter (fun r => negb (isna (t_tweet_id r.1))) g)) |}.

(** Line 199: the whole days from a date to the reference date; NaN when
    either is NaT.  [Timedelta.days] rounds down. *)
Definition days_between (dataset_end_date created : option Z) : option Z :=
  match dataset_end_date, created with
  | Some e, Some c => Some ((e - c) / day_ns)
  | _, _ => None
  end.

(** Line 202: [clip(lower=lo)] keeps NaN. *)
Definition clip_lower (lo : Z) (x : option Z) : option Z := Z.max lo <$> x.

(** Line 204: the division of two columns, cell by cell, in float64. *)
Definition column_div (x : Z) (y : option Z) : float :=
  match y with
  | Some d => PrimFloat.div (float_of_Z x) (float_of_Z d)
  | None => PrimFloat.nan
  end.

(** Lines 179-204: one row of the merged frame, filled and completed. *)
Definition final_of (dataset_end_date : option Z)
    (m : user_row * option tweet_feature) : result final_row :=
  let '(u, g) := m in
  let likes := from_option g_total_likes_received 0 g in
  let replies := from_option g_total_replies_received 0 g in
  let avg_len := from_option g_avg_tweet_text_length 0%float g in
  let obs := from_option g_obs_tweet_count 0 g in
  let! created := cell_datetime (u_user_created_at u) in
  let age := days_between dataset_end_date created in
  let age := clip_lower 1 age in
  Ok {| user_id := u_user_id u;
        profile_completeness_score := u_profile_completeness_score u;
        follower_following_ratio := u_follower_following_ratio u;
        user_created_at := u_user_created_at u;
        total_likes_received := likes;
        total_replies_received := replies;
        avg_tweet_text_length := avg_len;
        obs_tweet_count := obs;
        user_created_at_dt := created;
        account_age_days := age;
        avg_tweets_per_day := column_div obs age |}.

(** Line 218. *)
Definition project (r : final_row) : feature_row :=
  {| o_user_id := user_id r;
     o_profile_completeness_score := profile_completeness_score r;
     o_total_likes_received := total_likes_received r;
     o_total_replies_received := total_replies_received r;
     o_avg_tweets_per_day := avg_tweets_per_day r;
     o_avg_tweet_text_length := avg_tweet_text_length r;
     o_follower_following_ratio := follower_following_ratio r |}.

(** Lines 146-153.  A frame built from no rows has no columns, so reading
    its [created_at] column raises before the test on [empty] is reached. *)
Definition reference_date (csv_rows : list tweet_row)
    : result (list (tweet_row * option Z) * option Z) :=
  if decide (csv_rows = []) then Err KeyError
  else
    let! dated :=
      for_each (fun r => let! dt := cell_datetime (t_created_at r) in Ok (r, dt))
        csv_rows in
    let dataset_end_date :=
      if negb (bool_decide (dated = [])) then ts_max (List.map snd dated)
      else Some now in
    Ok (dated, dataset_end_date).

Definition main (selected_ids_list all_users : list json) (lines : list string)
    : result outputs :=
  let! selected_ids := load_selected_ids selected_ids_list in
  let! users_data := users_loop selected_ids all_users in
  let! csv_rows := tweets_loop selected_ids lines in
  let! '(dated, dataset_end_date) := reference_date csv_rows in
  let! sized :=
    for_each (fun r => let! n := text_len (t_tweet_text r.1) in Ok (r.1, n))
      dated in
  let! tweet_features :=
    for_each (fun k => aggregate k sized)
      (group_keys (List.map (fun r => t_user_id r.1) sized)) in
  let! merged :=
    (if decide (users_data = []) then Err KeyError
     else Ok (merge_left (fun u g => u_user_id u =? g_user_id g)
                users_data tweet_features)) in
  let! final := for_each (final_of dataset_end_date) merged in
  Ok {| intermediate := csv_rows;
        final_df := final;
        output_df := List.map project final |}.

End Run.

End Etl.

(** ** Stage B: [src/augment_features.py] *)

Module Augment.

Definition FINAL_FEATURES_PATH : string := "final_features.csv".
Definition SPLIT_PATH : string := "../TwiBot-22/split.csv".
Definition LABEL_PATH : string := "../TwiBot-22/label.csv".

Definition OUTPUT_FULL : string := "final_features_with_split_and_label.csv".
Definition OUTPUT_TRAIN : string := "train_features.csv".
Definition OUTPUT_VAL : string := "val_features.csv".
Definition OUTPUT_TEST : string := "test_features.csv".

(** [str(n)] for a row count, as the f-strings print it. *)
Definition show_nat (n : nat) : string := NilEmpty.string_of_uint (Nat.to_uint n).

Section Run.

(** The values [read_csv] puts in the feature columns. *)
Variable value : Type.

(** [pd.to_numeric(_, errors='coerce').astype('Int64')] on one key: the
    integer a numeric text stands for, [None] (the missing marker) for a
    text that is not numeric.  (A numeric text that is not an integer makes
    [astype] raise, and a column with an unparsable key goes through
    float64, exact below 2^53: keys are taken to be neither.) *)
Variable to_numeric : string -> option Z.

(** A row of [final_features.csv] as read back. *)
Record feature_row : Type := {
  user_id : Z;
  profile_completeness_score : value;
  total_likes_received : value;
  total_replies_received : value;
  avg_tweets_per_day : value;
  avg_tweet_text_length : value;
  follower_following_ratio : value }.

(** A row of [split.csv] or [label.csv]: the [id] cell as [astype(str)]
    shows it, and the second cell, [None] when it is empty. *)
Definition raw_row : Type := string * option string.

(** The same row once [normalize_id] has run and [id] is renamed. *)
Definition keyed_row : Type := option Z * option string.

(** A row of [df_merged] after the two [fillna]. *)
Record aug_row : Type := {
  features : feature_row;
  split : string;
  label : string }.

(** What the file system holds when the stage starts; [None] is a file
    that does not exist. *)
Record files : Type := {
  final_features_csv : option (list feature_row);
  split_csv : option (list raw_row);
  label_csv : option (list raw_row) }.

(** Lines 19-21 on one key. *)
Definition normalize_key (id : string) : option Z :=
  to_numeric (remove_char "u" id).

(** Lines 14-22. *)
Definition normalize_id (df : list raw_row) : list keyed_row :=
  List.map (fun r => (normalize_key r.1, r.2)) df.

(** Keys meet in a join when both hold the same integer. *)
Definition key_match (uid : Z) (k : option Z) : bool :=
  match k with
  | Some n => uid =? n
  | None => false
  end.

(** Lines 33-49: an external table, and what is printed about it. *)
Definition load_table (path what : string) (f : option (list raw_row))
    : list keyed_row * string :=
  match f with
  | Some df =>
      (normalize_id df,
       "Loaded " ++ what ++ ": " ++ show_nat (length df) ++ " rows")
  | None =>
      ([],
       "Warning: " ++ path ++ " not found. "
         ++ (if String.eqb what "split" then "Splits" else "Labels")
         ++ " will be unknown.")
  end.

(** Lines 54-61: two left joins, then the two [fillna('unknown')]. *)
Definition augment (df_features : list feature_row)
    (df_split df_label : list keyed_row) : list aug_row :=
  let df_merged :=
    merge_left (fun f r => key_match (user_id f) r.1) df_features df_split in
  let df_merged :=
    merge_left (fun m r => key_match (user_id m.1) r.1) df_merged df_label in
  List.map (fun m =>
    {| features := m.1.1;
       split := default "unknown" (m.1.2 ≫= snd);
       label := default "unknown" (m.2 ≫= snd) |}) df_merged.

(** Line 75. *)
Definition subset (df_merged : list aug_row) (split_name : string) : list aug_row :=
  List.filter (fun r => String.eqb (split r) split_name) df_merged.

Definition splits : list string := ["train"; "val"; "test"].
Definition out_files : list string := [OUTPUT_TRAIN; OUTPUT_VAL; OUTPUT_TEST].

(** Lines 74-77: the tables written by the loop, with their file names,
    and the line printed for each. *)
Definition save_subsets (df_merged : list aug_row)
    : list (string * list aug_row) * list string :=
  let steps :=
    List.map (fun '(split_name, file_name) =>
      let sub := subset df_merged split_name in
      ((file_name, sub),
       "Saving " ++ split_name ++ " subset (" ++ show_nat (length sub)
         ++ " rows) to " ++ file_name ++ "..."))
      (zip splits out_files) in
  (List.map fst steps, List.map snd steps).

(** The run: the lines printed, and the files written with their tables,
    in the order of writing.  (The printed sample of the merged table is
    left out of the lines.) *)
Definition main (fs : files) : list string * list (string * list aug_row) :=
  match final_features_csv fs with
  | None =>
      (["Loading files..."; "Error: " ++ FINAL_FEATURES_PATH ++ " not found."], [])
  | Some df_features =>
      let '(df_split, split_line) := load_table SPLIT_PATH "split" (split_csv fs) in
      let '(df_label, label_line) := load_table LABEL_PATH "labels" (label_csv fs) in
      let df_merged := augment df_features df_split df_label in
      let '(written, saved_lines) := save_subsets df_merged in
      (app ["Loading files...";
            "Loaded features: " ++ show_nat (length df_features) ++ " rows";
            split_line; label_line;
            "Merging data...";
            "Sample of merged data:";
            "Saving merged data to " ++ OUTPUT_FULL ++ "..."]
           (app saved_lines ["Done."]),
       (OUTPUT_FULL, df_merged) :: written)
  end.

End Run.

Arguments user_id {value} _.
Arguments features {value} _.
Arguments split {value} _.
Arguments label {value} _.
Arguments final_features_csv {value} _.
Arguments split_csv {value} _.
Arguments label_csv {value} _.

End Augment.

(** ** Readers for the examples

    Concrete readers to run the two stages on example inputs.  Each one
    covers a fragment of what the library function reads and agrees with
    it there and on texts the library rejects; the examples stay inside. *)

Module Readers.

Definition dquote : ascii := "034"%char.

(** An example line is written with single quotes for readability. *)
Fixpoint q (s : string) : string :=
  match s with
  | EmptyString => EmptyString
  | String c s' => String (if Ascii.eqb c "'" then dquote else c) (q s')
  end.

Definition is_json_ws (c : ascii) : bool :=
  let n := code c in (n =? 32) || (n =? 9) || (n =? 10) || (n =? 13).

Fixpoint skip_ws (s : string) : string :=
  match s with
  | String c s' => if is_json_ws c then skip_ws s' else s
  | EmptyString => EmptyString
  end.

(** [eat p s]: [s] without its prefix [p]. *)
Fixpoint eat (p s : string) : option string :=
  match p, s with
  | EmptyString, _ => Some s
  | String a p', String b s' => if Ascii.eqb a b then eat p' s' else None
  | String _ _, EmptyString => None
  end.

(** The body of a JSON string up to its closing quote; escapes are outside
    the fragment, control characters are not JSON. *)
Fixpoint read_chars (s : string) : option (string * string) :=
  match s with
  | EmptyString => None
  | String c s' =>
      if Ascii.eqb c dquote then Some (EmptyString, s')
      else if Ascii.eqb c "\" || (code c <? 32) then None
      else
        match read_chars s' with
        | Some (body, rest) => Some (String c body, rest)
        | None => None
        end
  end.

Fixpoint read_digits (acc : Z) (s : string) : Z * string :=
  match s with
  | String c s' =>
      match digit_val c with
      | Some d => read_digits (10 * acc + d) s'
      | None => (acc, s)
      end
  | EmptyString => (acc, s)
  end.

(** A JSON integer: no leading zero, no fraction, no exponent. *)
Definition read_int (s : string) : option (Z * string) :=
  let '(neg, s) :=
    match s with
    | String "-" s' => (true, s')
    | _ => (false, s)
    end in
  match s with
  | String c s' =>
      match digit_val c with
      | Some d =>
          let '(n, rest) := if d =? 0 then (0, s') else read_digits d s' in
          match rest with
          | String c' _ =>
              if (Ascii.eqb c' "." || Ascii.eqb c' "e" || Ascii.eqb c' "E")
                 || (match digit_val c' with Some _ => true | None => false end)
              then None
              else Some (if neg then - n else n, rest)
          | EmptyString => Some (if neg then - n else n, rest)
          end
      | None => None
      end
  | EmptyString => None
  end.

(** [d[k] = v] on a dict under construction: a key met again keeps its
    place and takes the new value. *)
Fixpoint dict_set (k : string) (v : json) (o : list (string * json))
    : list (string * json) :=
  match o with
  | [] => [(k, v)]
  | (k', v') :: o' =>
      if String.eqb k k' then (k', v) :: o' else (k', v') :: dict_set k v o'
  end.

Fixpoint read_value (fuel : nat) (s : string) : option (json * string) :=
  match fuel with
  | O => None
  | S fuel =>
      match skip_ws s with
      | String c s' =>
          if Ascii.eqb c dquote then
            match read_chars s' with
            | Some (body, rest) => Some (JStr body, rest)
            | None => None
            end
          else if Ascii.eqb c "[" then
            match skip_ws s' with
            | String "]" rest => Some (JArr [], rest)
            | _ =>
                match read_elems fuel s' with
                | Some (l, rest) => Some (JArr l, rest)
                | None => None
                end
            end
          else if Ascii.eqb c "{" then
            match skip_ws s' with
            | String "}" rest => Some (JObj [], rest)
            | _ =>
                match read_members fuel [] s' with
                | Some (o, rest) => Some (JObj o, rest)
                | None => None
                end
            end
          else
            match eat "null" (String c s'), eat "true" (String c s'),
                  eat "false" (String c s') with
            | Some rest, _, _ => Some (JNull, rest)
            | _, Some rest, _ => Some (JBool true, rest)
            | _, _, Some rest => Some (JBool false, rest)
            | _, _, _ =>
                match read_int (String c s') with
                | Some (n, rest) => Some (JInt n, rest)
                | None => None
                end
            end
      | EmptyString => None
      end
  end
with read_elems (fuel : nat) (s : string) : option (list json * string) :=
  match fuel with
  | O => None
  | S fuel =>
      match read_value fuel s with
      | Some (v, rest) =>
          match skip_ws rest with
          | String "," rest' =>
              match read_elems fuel rest' with
              | Some (l, rest'') => Some (v :: l, rest'')
              | None => None
              end
          | String "]" rest' => Some ([v], rest')
          | _ => None
          end
      | None => None
      end
  end
with read_members (fuel : nat) (acc : list (string * json)) (s : string)
    : option (list (string * json) * string) :=
  match fuel with
  | O => None
  | S fuel =>
      match skip_ws s with
      | String c s' =>
          if Ascii.eqb c dquote then
            match read_chars s' with
            | Some (k, rest) =>
                match skip_ws rest with
                | String ":" rest' =>
                    match read_value fuel rest' with
                    | Some (v, rest'') =>
                        let acc := dict_set k v acc in
                        match skip_ws rest'' with
                        | String "," r => read_members fuel acc r
                        | String "}" r => Some (acc, r)
                        | _ => None
                        end
                    | None => None
                    end
                | _ => None
                end
            | None => None
            end
          else None
      | EmptyString => None
      end
  end.

(** [json.loads] on the fragment: objects, arrays, strings without
    escapes, integers, [true], [false] and [null]. *)
Definition json_loads (s : string) : option json :=
  match read_value (2 * String.length s + 2) s with
  | Some (v, rest) =>
      match skip_ws rest with
      | EmptyString => Some v
      | _ => None
      end
  | None => None
  end.

(** Days from 1970-01-01 to a date of the proleptic Gregorian calendar. *)
Definition days_from_civil (y m d : Z) : Z :=
  let y := if m <=? 2 then y - 1 else y in
  let era := y / 400 in
  let yoe := y - era * 400 in
  let mp := (m + 9) mod 12 in
  let doy := (153 * mp + 2) / 5 + d - 1 in
  let doe := yoe * 365 + yoe / 4 - yoe / 100 + doy in
  era * 146097 + doe - 719468.

Definition days_in_month (y m : Z) : Z :=
  if m =? 2 then
    if ((y mod 4 =? 0) && negb (y mod 100 =? 0)) || (y mod 400 =? 0) then 29 else 28
  else if (m =? 4) || (m =? 6) || (m =? 9) || (m =? 11) then 30
  else 31.

(** Exactly [n] digits. *)
Fixpoint read_fixed (n : nat) (acc : Z) (s : string) : option (Z * string) :=
  match n with
  | O => Some (acc, s)
  | S n' =>
      match s with
      | String c s' =>
          match digit_val c with
          | Some d => read_fixed n' (10 * acc + d) s'
          | None => None
          end
      | EmptyString => None
      end
  end.

(** [pd.to_datetime] on a text of the form [2011-01-23 10:45:43+00:00]:
    nanoseconds since the epoch. *)
Definition to_datetime (s : string) : result (option Z) :=
  let parsed :=
    '(y, s) ← read_fixed 4 0 s; s ← eat "-" s;
    '(m, s) ← read_fixed 2 0 s; s ← eat "-" s;
    '(d, s) ← read_fixed 2 0 s; s ← eat " " s;
    '(h, s) ← read_fixed 2 0 s; s ← eat ":" s;
    '(mi, s) ← read_fixed 2 0 s; s ← eat ":" s;
    '(sec, s) ← read_fixed 2 0 s; s ← eat "+00:00" s;
    if (String.eqb s "") && (1 <=? y) && (1 <=? m) && (m <=? 12) && (1 <=? d)
       && (d <=? days_in_month y m) && (h <? 24) && (mi <? 60) && (sec <? 60)
    then Some ((days_from_civil y m d * 86400 + h * 3600 + mi * 60 + sec) * 10 ^ 9)
    else None in
  match parsed with
  | Some t => Ok (Some t)
  | None => Err ValueError
  end.

(** [pd.to_numeric] then [Int64] on a text of decimal digits; a text with
    any other character is not numeric here. *)
Definition to_numeric (s : string) : option Z :=
  match s with
  | EmptyString => None
  | _ =>
      match read_digits 0 s with
      | (n, EmptyString) => Some n
      | _ => None
      end
  end.

End Readers.

(** ** Words of the specification *)

(** A field is present when reading it does not give [None]: a key that is
    missing and a key bound to [null] read the same. *)
Definition present (u : list (string * json)) (k : string) : bool :=
  negb (is_None (dict_get u k)).

Definition nonempty_text (u : list (string * json)) (k : string) : bool :=
  match dict_get u k with
  | JStr (String _ _) => true
  | _ => false
  end.

(** The data model's [string|absent]. *)
Definition text_or_absent (u : list (string * json)) (k : string) : Prop :=
  dict_get u k = JNull \/ exists s, dict_get u k = JStr s.

Definition b2z (b : bool) : Z := if b then 1 else 0.

(** A text of whitespace only; a text that begins, or ends, with
    whitespace. *)
Fixpoint all_space (s : string) : bool :=
  match s with
  | EmptyString => true
  | String c s' => is_space c && all_space s'
  end.

Definition space_first (s : string) : bool :=
  match s with
  | EmptyString => false
  | String c _ => is_space c
  end.

Fixpoint space_last (s : string) : bool :=
  match s with
  | EmptyString => false
  | String c EmptyString => is_space c
  | String _ s' => space_last s'
  end.

(** The text of a line once it is stripped and has lost one trailing
    comma. *)
Definition cleaned (line : string) : string :=
  let line := strip line in
  if endswith "," line then drop_last line else line.

(** The rows of the intermediate table that belong to a user, and those
    among them that carry a tweet id. *)
Definition matched_rows (uid : Z) (rows : list Etl.tweet_row) : list Etl.tweet_row :=
  List.filter (fun t => Etl.t_user_id t =? uid) rows.

Definition with_id (rows : list Etl.tweet_row) : list Etl.tweet_row :=
  List.filter (fun t => negb (isna (Etl.t_tweet_id t))) rows.

(** The rows of a split or label table that hold a given key. *)
Definition rows_of_key (uid : Z) (T : list Augment.keyed_row) : list Augment.keyed_row :=
  List.filter (fun row => Augment.key_match uid row.1) T.

(** The three split values the partition knows. *)
Definition recognized (s : string) : bool :=
  String.eqb s "train" || String.eqb s "val" || String.eqb s "test".

(** A text without the letter [u]. *)
Fixpoint no_u (s : string) : bool :=
  match s with
  | EmptyString => true
  | String c s' => negb (Ascii.eqb c "u") && no_u s'
  end.


(** The integer id of a record of the profile source, [int(u['id'])]. *)
Definition profile_id (u : json) : result Z :=
  let! id := getitem u "id" in py_int id.

(** *** Records of the data model

    What the data model asks of the inputs of Stage A, as tests on the
    loaded values: enough for a run to go through. *)

(** A count that is an integer, or is left out. *)
Definition count_or_absent (m : list (string * json)) (k : string) : bool :=
  match assoc k m with
  | None | Some (JInt _) => true
  | Some _ => false
  end.

(** A count that fits an int64 column, is null, or is left out. *)
Definition int64_or_absent (m : list (string * json)) (k : string) : bool :=
  match assoc k m with
  | None | Some JNull => true
  | Some x => is_ok (Etl.int64_cell x)
  end.

(** A timestamp string the date parser accepts, or nothing. *)
Definition timestamp_or_absent (to_datetime : string -> result (option Z))
    (x : json) : bool :=
  match x with
  | JNull => true
  | JStr s => is_ok (to_datetime s)
  | _ => false
  end.

(** UserRecord. *)
Definition user_record (to_datetime : string -> result (option Z)) (u : json) : bool :=
  match u with
  | JObj o =>
      is_ok (profile_id u)
      && match dict_get o "description" with
         | JNull | JStr _ => true
         | _ => false
         end
      && match assoc "public_metrics" o with
         | None => true
         | Some (JObj m) =>
             count_or_absent m "followers_count" && count_or_absent m "following_count"
         | Some _ => false
         end
      && timestamp_or_absent to_datetime (dict_get o "created_at")
  | _ => false
  end.

(** A line of the stream that holds nothing, or a TweetRecord. *)
Definition tweet_line (json_loads : string -> option json)
    (to_datetime : string -> result (option Z)) (line : string) : bool :=
  match Etl.parse_line json_loads line with
  | JNull => true
  | JObj o =>
      match assoc "author_id" o with
      | Some a => is_ok (py_int a)
      | None => false
      end
      && match assoc "public_metrics" o with
         | None => true
         | Some (JObj m) =>
             int64_or_absent m "like_count" && int64_or_absent m "reply_count"
         | Some _ => false
         end
      && match assoc "id" o with Some _ => true | None => false end
      && match assoc "text" o with
         | Some JNull | Some (JStr _) => true
         | _ => false
         end
      && match assoc "created_at" o with
         | Some x => timestamp_or_absent to_datetime x
         | None => false
         end
  | _ => false
  end.


Definition tweet_row_ok (to_datetime : string -> result (option Z))
    (r : Etl.tweet_row) : Prop :=
  is_ok (Etl.cell_datetime to_datetime (Etl.t_created_at r)) = true
  /\ is_ok (Etl.text_len (Etl.t_tweet_text r)) = true
  /\ is_ok (Etl.int64_cell (Etl.t_like_count r)) = true
  /\ is_ok (Etl.int64_cell (Etl.t_reply_count r)) = true.

(** The author of a line, when it holds a record with one. *)
Definition author_of (json_loads : string -> option json) (line : string) : result Z :=
  let tweet := Etl.parse_line json_loads line in
  if is_None tweet then Err KeyError
  else let! a := getitem tweet "author_id" in py_int a.

(** ** Example inputs *)

Module Sample.
Import Readers.

Definition full_user : list (string * json) :=
  [("id", JInt 7); ("verified", JBool true); ("description", JStr "bot hunter");
   ("profile_image_url", JStr "http://img/7.png"); ("location", JStr "Oslo");
   ("public_metrics", JObj [("followers_count", JInt 10); ("following_count", JInt 4)]);
   ("created_at", JStr "2019-12-31 00:00:00+00:00")].

Definition selected_ids_list : list json := [JInt 1; JStr "2"; JInt 7].

Definition plain_user (uid : Z) (created : string) : json :=
  JObj [("id", JInt uid); ("verified", JBool true); ("created_at", JStr created)].

(** User 1, verified and nothing else, created when its last tweet was
    written; user 7 with a full profile and no tweet; user 4, not selected. *)
Definition all_users : list json :=
  [plain_user 1 "2020-01-03 12:00:00+00:00"; JObj full_user;
   plain_user 4 "2018-05-05 00:00:00+00:00"].

(** The same users with the record of user 1 given twice. *)
Definition users_twice : list json :=
  plain_user 1 "2020-01-03 12:00:00+00:00" :: all_users.

Definition tweet_lines : list string :=
  ["[";
   q "{'id': 100, 'author_id': 1, 'text': 'hello', 'created_at': '2020-01-02 00:00:00+00:00', 'public_metrics': {'like_count': 3, 'reply_count': 1}},";
   q "{'id': 101, 'author_id': '1', 'text': 'bye', 'created_at': '2020-01-03 12:00:00+00:00'},";
   q "{'id': 102, 'author_id': 1, 'text': ";
   q "{'id': 103, 'author_id': 9, 'text': 'other', 'created_at': '2021-01-01 00:00:00+00:00'}";
   "]"].

Definition no_outputs : Etl.outputs :=
  {| Etl.intermediate := []; Etl.final_df := []; Etl.output_df := [] |}.

Definition run (users : list json) (lines : list string) : result Etl.outputs :=
  Etl.main json_loads to_datetime 0 selected_ids_list users lines.

(** What the run on the example inputs writes. *)
Definition run_outputs : Etl.outputs :=
  Eval vm_compute in
    match run all_users tweet_lines with
    | Ok out => out
    | Err _ => no_outputs
    end.

(** Its first row: user 1, created when the last matched tweet was
    written. *)
Definition first_row : option Etl.final_row :=
  Eval vm_compute in head (Etl.final_df run_outputs).

(** Stage B: three feature rows; a split table whose third key has the
    prefix [b] and whose last row has no split; no label file. *)
Definition feature (uid : Z) (score : float) : Augment.feature_row float :=
  {| Augment.user_id := uid;
     Augment.profile_completeness_score := score;
     Augment.total_likes_received := 3%float;
     Augment.total_replies_received := 1%float;
     Augment.avg_tweets_per_day := 2%float;
     Augment.avg_tweet_text_length := 4%float;
     Augment.follower_following_ratio := 0%float |}.

Definition df_features : list (Augment.feature_row float) :=
  [feature 1 1%float; feature 7 5%float; feature 9 2%float; feature 12 0%float].

Definition split_rows : list Augment.raw_row :=
  [("u1", Some "train"); ("u7", Some "test"); ("b9", Some "val"); ("u12", None)].

Definition stage_b_files : Augment.files float :=
  {| Augment.final_features_csv := Some df_features;
     Augment.split_csv := Some split_rows;
     Augment.label_csv := None |}.

End Sample.

(** ** Words for the further properties *)

(** [u.get('public_metrics', {})] on a user dict. *)
Definition metrics_of (u : list (string * json)) : json :=
  default (JObj []) (assoc "public_metrics" u).

(** The values [len] refuses. *)
Definition unsized (x : json) : bool :=
  match x with
  | JBool _ | JInt _ | JFloat _ => true
  | _ => false
  end.

(** The records of the profile source whose integer id is selected. *)
Definition selected_records (sel : gset Z) (users : list json) : list json :=
  List.filter (fun u =>
    match profile_id u with
    | Ok i => bool_decide (i ∈ sel)
    | Err _ => false
    end) users.

(** The authors of the lines that hold a record, in stream order. *)
Definition stream_authors (json_loads : string -> option json)
    (lines : list string) : list Z :=
  omap (fun line =>
    match author_of json_loads line with
    | Ok a => Some a
    | Err _ => None
    end) lines.

(** How many times a left join repeats a row: once per matching row of the
    table, and once when there is none. *)
Definition copies (uid : Z) (T : list Augment.keyed_row) : nat :=
  Nat.max 1 (length (rows_of_key uid T)).

(** The values a left join followed by [fillna('unknown')] can give a user:
    the value of each row of the table that holds the user's id, an empty
    cell read as unknown, and unknown alone when no row holds the id. *)
Definition joined_values (uid : Z) (T : list Augment.keyed_row) : list string :=
  match rows_of_key uid T with
  | [] => ["unknown"]
  | rows => List.map (fun row => default "unknown" row.2) rows
  end.

(** ** More example inputs *)

Module More.
Import Readers.

(** A profile source with a record that has no id. *)
Definition users_without_id : list json :=
  Sample.all_users ++ [JObj [("verified", JBool true)]].

(** Selected ids none of which is in the profile source, while user 9 has
    a tweet in the stream. *)
Definition ids_without_profile : list json := [JInt 9].

Definition no_row : Etl.final_row :=
  {| Etl.user_id := 0; Etl.profile_completeness_score := 0;
     Etl.follower_following_ratio := 0%float; Etl.user_created_at := JNull;
     Etl.total_likes_received := 0; Etl.total_replies_received := 0;
     Etl.avg_tweet_text_length := 0%float; Etl.obs_tweet_count := 0;
     Etl.user_created_at_dt := None; Etl.account_age_days := None;
     Etl.avg_tweets_per_day := 0%float |}.

(** The row of user 1 in the final frame of the example run. *)
Definition user1_row : Etl.final_row :=
  Eval vm_compute in from_option id no_row Sample.first_row.

(** The set they make, and the intermediate rows of the stream under it. *)
Definition nine : gset Z := list_to_set [9].

Definition rows_of_nine : list Etl.tweet_row :=
  Eval vm_compute in
    match Etl.tweets_loop json_loads nine Sample.tweet_lines with
    | Ok rows => rows
    | Err _ => []
    end.

(** User 1 without its creation date beside user 7 with one, and what
    the run then writes. *)
Definition users_undated : list json :=
  [JObj [("id", JInt 1); ("verified", JBool true)]; JObj Sample.full_user].

Definition undated_outputs : Etl.outputs :=
  Eval vm_compute in
    match Sample.run users_undated Sample.tweet_lines with
    | Ok out => out
    | Err _ => Sample.no_outputs
    end.

Definition undated_row : Etl.final_row :=
  Eval vm_compute in from_option id no_row (head (Etl.final_df undated_outputs)).

Definition dated_row : Etl.final_row :=
  Eval vm_compute in from_option id no_row (head (tail (Etl.final_df undated_outputs))).

(** A split table that names user 1 twice and leaves the split of user 7
    empty, and the second merged row it gives user 1. *)
Definition split_rows_twice : list Augment.keyed_row :=
  [(Some 1, Some "train"); (Some 7, None); (Some 1, Some "val")].

Definition merged_val_row : Augment.aug_row float :=
  {| Augment.features := Sample.feature 1 1%float;
     Augment.split := "val";
     Augment.label := "unknown" |}.

(** A record line as the stream file lays it out. *)
Definition bare_line : string := q "{'id': 101, 'author_id': '1', 'text': 'bye'}".

End More.

(** * Theorems *)

(** ** The profile completeness score *)

(** C2. For a user record whose description is a string or absent, the
    score is computed without raising; it is the sum of five indicators
    (verified is exactly true, description present, description non-empty,
    image URL present, location present), it lies between 0 and 5, and it
    is 5 when all five hold. *)
Theorem completeness_score (u : list (string * json)) :
  text_or_absent u "description" ->
  exists n,
    Etl.completeness u = Ok n
    /\ n = b2z (is_True (dict_get u "verified"))
           + b2z (present u "description")
           + b2z (nonempty_text u "description")
           + b2z (present u "profile_image_url")
           + b2z (present u "location")
    /\ 0 <= n <= 5
    /\ (is_True (dict_get u "verified") = true ->
        nonempty_text u "description" = true ->
        present u "profile_image_url" = true ->
        present u "location" = true -> n = 5).
Proof.
  unfold Etl.completeness, present, nonempty_text.
  intros [Hd | [s Hd]]; rewrite !Hd; [| destruct s]; simpl;
    (eexists; split; [reflexivity |]);
    destruct (is_True _), (is_None (dict_get u "profile_image_url")),
      (is_None (dict_get u "location"));
    simpl; repeat split; intros; try lia; done.
Qed.

Lemma completeness_score_witness :
  text_or_absent Sample.full_user "description"
  /\ exists n, Etl.completeness Sample.full_user = Ok n /\ n = 5.
Proof.
  assert (H : text_or_absent Sample.full_user "description").
  { right. eexists. reflexivity. }
  split; [exact H |].
  destruct (completeness_score Sample.full_user H) as (n & Hn & _ & _ & H5).
  exists n. split; [exact Hn | apply H5; reflexivity].
Defined.


(** ** Loops that may raise *)

Lemma bind_ok {A B} (m : result A) (f : A -> result B) (b : B) :
  bind m f = Ok b <-> exists a, m = Ok a /\ f a = Ok b.
Proof.
  destruct m as [a | e]; simpl; split.
  - intros H. by exists a.
  - by intros (a' & [= <-] & H).
  - done.
  - by intros (a' & [=] & _).
Qed.

Tactic Notation "bind_inv" hyp(H) "as" ident(x) ident(Hx) :=
  apply bind_ok in H as (x & Hx & H).

Section ForEach.
Context {A B : Type}.

Lemma for_each_ok (f : A -> result B) (l : list A) (ys : list B) :
  for_each f l = Ok ys <-> Forall2 (fun x y => f x = Ok y) l ys.
Proof.
  revert ys. induction l as [| x l IH]; intros ys; simpl.
  - split; [intros [= <-]; constructor | intros H; by inversion H].
  - rewrite bind_ok. split.
    + intros (y & Hy & H). bind_inv H as ys' Hys. injection H as <-.
      constructor; [done | by apply IH].
    + intros H. inversion H as [| ? y ? ys' Hy Hys]; subst.
      exists y. split; [done |]. apply bind_ok. exists ys'.
      split; [by apply IH | done].
Qed.

(** Mapping back: when each result determines its input's image. *)
Lemma for_each_map {C} (f : A -> result B) (g : A -> C) (h : B -> C) l ys :
  (forall x y, f x = Ok y -> h y = g x) ->
  for_each f l = Ok ys -> List.map h ys = List.map g l.
Proof.
  intros Hfg. rewrite for_each_ok. induction 1 as [| x y l ys Hxy _ IH]; simpl.
  - done.
  - f_equal; [by apply Hfg | done].
Qed.

Lemma for_each_elem (f : A -> result B) l ys y :
  for_each f l = Ok ys -> y ∈ ys -> exists x, x ∈ l /\ f x = Ok y.
Proof.
  rewrite for_each_ok. induction 1 as [| x y' l ys Hxy _ IH].
  - by intros ?%elem_of_nil.
  - intros [-> | Hy]%elem_of_cons.
    + exists x. split; [left | done].
    + destruct (IH Hy) as (x' & ? & ?). exists x'. split; [by right | done].
Qed.

End ForEach.

(** A step that adds no row leaves the loop's result as it is without
    the element. *)
Lemma for_each_skip {A B} (f : A -> result (option B)) before x after :
  f x = Ok None ->
  bind (for_each f (before ++ x :: after)%list) (fun rows => Ok (omap id rows))
  = bind (for_each f (before ++ after)%list) (fun rows => Ok (omap id rows)).
Proof.
  intros Hx. induction before as [| a before IH]; simpl.
  - rewrite Hx. simpl. by destruct (for_each f after).
  - destruct (f a) as [o |]; simpl; [| done].
    destruct (for_each f (before ++ x :: after)%list),
      (for_each f (before ++ after)%list); simpl in *; try congruence.
    injection IH as IH. unfold omap in *. simpl. by rewrite IH.
Qed.

(** ** The tweet stream, line by line *)






Lemma parse_line_cleaned json_loads (line : string) :
  Etl.parse_line json_loads line =
    if String.eqb (cleaned line) "[" || String.eqb (cleaned line) "]" then JNull
    else default JNull (json_loads (cleaned line)).
Proof.
  unfold Etl.parse_line, cleaned.
  destruct (String.eqb _ "[" || String.eqb _ "]"); [done |].
  by destruct (json_loads _).
Qed.





(** ** The reference date *)

Lemma ts_max_upper (l : list (option Z)) (t : Z) :
  Some t ∈ l -> exists m, ts_max l = Some m /\ t <= m.
Proof.
  induction l as [| x l IH]; [by intros ?%elem_of_nil |].
  intros [<- | Hin]%elem_of_cons; simpl.
  - destruct (ts_max l) as [b |]; eexists; (split; [reflexivity | lia]).
  - destruct (IH Hin) as (m & -> & Hm).
    destruct x as [a |]; eexists; (split; [reflexivity | lia]).
Qed.

Lemma ts_max_elem (l : list (option Z)) (m : Z) :
  ts_max l = Some m -> Some m ∈ l.
Proof.
  revert m. induction l as [| x l IH]; intros m; simpl; [done |].
  destruct x as [a |], (ts_max l) as [b |] eqn:Hb; intros [= <-].
  - destruct (Z.max_spec a b) as [[_ ->] | [_ ->]]; [right; by apply IH | left].
  - left.
  - right. by apply IH.
Qed.

(** With at least one matched row the reference date is the greatest of
    the parsed [created_at] of the rows, each row keeping its date. *)
Lemma reference_date_is_max to_datetime now csv_rows dated e :
  Etl.reference_date to_datetime now csv_rows = Ok (dated, e) ->
  csv_rows <> []
  /\ List.map fst dated = csv_rows
  /\ Forall (fun d => Etl.cell_datetime to_datetime (Etl.t_created_at d.1) = Ok d.2) dated
  /\ e = ts_max (List.map snd dated)
  /\ (forall t, Some t ∈ List.map snd dated -> exists m, e = Some m /\ t <= m)
  /\ (forall m, e = Some m -> Some m ∈ List.map snd dated).
Proof.
  unfold Etl.reference_date. destruct (decide (csv_rows = [])) as [| Hne]; [done |].
  intros H. bind_inv H as ds Hds. injection H as <- <-.
  assert (Hfst : List.map fst ds = csv_rows).
  { transitivity (List.map id csv_rows); [| apply List.map_id].
    eapply for_each_map; [| done].
    intros r y Hy. bind_inv Hy as dt Hdt. by injection Hy as <-. }
  assert (Hnil : ds <> []) by (intros ->; simpl in Hfst; congruence).
  rewrite bool_decide_eq_false_2 by done. simpl.
  split; [done |]. split; [done |]. split.
  { apply Forall_forall. intros d Hd.
    destruct (for_each_elem _ _ _ _ Hds Hd) as (r & _ & Hr).
    bind_inv Hr as dt Hdt. injection Hr as <-. done. }
  split; [done |]. split; [apply ts_max_upper | apply ts_max_elem].
Qed.

(** ** Grouping and joining *)

Lemma insert_key_elem (k x : Z) (l : list Z) :
  x ∈ insert_key k l <-> x = k \/ x ∈ l.
Proof.
  induction l as [| y l IH]; simpl.
  - rewrite list_elem_of_singleton. split; [auto | intros [| ?%elem_of_nil]; done].
  - destruct (Z.ltb_spec k y); [by rewrite elem_of_cons |].
    destruct (Z.eqb_spec k y) as [-> | Hne].
    + rewrite elem_of_cons. tauto.
    + rewrite !elem_of_cons, IH. tauto.
Qed.

Lemma insert_key_sorted (k : Z) (l : list Z) :
  StronglySorted Z.lt l -> StronglySorted Z.lt (insert_key k l).
Proof.
  induction 1 as [| y l Hs IH Hy]; simpl.
  - repeat constructor.
  - destruct (Z.ltb_spec k y).
    + constructor; [by constructor |]. constructor; [done |].
      eapply Forall_impl; [exact Hy | intros; simpl in *; lia].
    + destruct (Z.eqb_spec k y); [by constructor |].
      constructor; [done |]. apply Forall_forall. intros x Hx.
      apply insert_key_elem in Hx as [-> | Hx]; [lia |].
      by eapply Forall_forall in Hy.
Qed.

Lemma group_keys_elem (x : Z) (ids : list Z) : x ∈ group_keys ids <-> x ∈ ids.
Proof.
  induction ids as [| k ids IH]; simpl; [done |].
  rewrite insert_key_elem, elem_of_cons, IH. done.
Qed.

Lemma group_keys_sorted (ids : list Z) : StronglySorted Z.lt (group_keys ids).
Proof.
  induction ids; simpl; [constructor | by apply insert_key_sorted].
Qed.

Lemma group_keys_NoDup (ids : list Z) : NoDup (group_keys ids).
Proof.
  induction (group_keys_sorted ids) as [| y l Hs IH Hy]; constructor; [| done].
  intros Hin. eapply Forall_forall in Hy; [| done]. lia.
Qed.

(** A table with one row per key, looked up by key: the row of the key,
    or nothing. *)
Lemma filter_unique_key {G} (gid : G -> Z) (agg : Z -> result G)
    (keys : list Z) (tf : list G) (uid : Z) :
  (forall k g, agg k = Ok g -> gid g = k) ->
  NoDup keys ->
  Forall2 (fun k g => agg k = Ok g) keys tf ->
  ((uid ∉ keys) /\ List.filter (fun g => uid =? gid g) tf = [])
  \/ ((uid ∈ keys) /\ exists g, List.filter (fun g => uid =? gid g) tf = [g]
                              /\ agg uid = Ok g).
Proof.
  intros Hgid Hnd H. induction H as [| k g keys tf Hkg _ IH]; simpl.
  - left. split; [apply not_elem_of_nil | done].
  - apply NoDup_cons in Hnd as [Hk Hnd]. specialize (IH Hnd).
    rewrite (Hgid _ _ Hkg). destruct (Z.eqb_spec uid k) as [-> | Hne].
    + right. split; [left |]. exists g.
      destruct IH as [[_ ->] | [Hin _]]; [done | contradiction].
    + destruct IH as [[Hnin ->] | (Hin & g' & -> & Hg')].
      * left. split; [| done]. rewrite elem_of_cons. tauto.
      * right. split; [by right |]. by exists g'.
Qed.

Lemma merge_left_lookup {L R} (matches : L -> R -> bool)
    (left : list L) (right : list R) (pick : L -> option R) :
  (forall l, l ∈ left ->
     List.filter (matches l) right = match pick l with Some r => [r] | None => [] end) ->
  merge_left matches left right = List.map (fun l => (l, pick l)) left.
Proof.
  induction left as [| l left IH]; intros H; [done |].
  change (merge_left matches (l :: left) right)
    with ((match List.filter (matches l) right with
           | [] => [(l, None)]
           | ms => List.map (fun r => (l, Some r)) ms
           end) ++ merge_left matches left right)%list.
  rewrite IH by (intros; apply H; by right).
  rewrite (H l) by left. destruct (pick l) eqn:E; simpl; by rewrite E.
Qed.

(** ** The run of Stage A, taken apart *)

Lemma filter_map_comm {A B} (P : B -> bool) (f : A -> B) (l : list A) :
  List.filter P (List.map f l) = List.map f (List.filter (fun a => P (f a)) l).
Proof.
  induction l as [| a l IH]; simpl; [done |].
  destruct (P (f a)); simpl; by rewrite IH.
Qed.

Lemma aggregate_facts (k : Z) (sized : list (Etl.tweet_row * Z)) (g : Etl.tweet_feature) :
  Etl.aggregate k sized = Ok g ->
  Etl.g_user_id g = k
  /\ Etl.g_obs_tweet_count g
     = Z.of_nat (length (with_id (matched_rows k (List.map fst sized)))).
Proof.
  unfold Etl.aggregate. intros H.
  bind_inv H as likes Hlikes. bind_inv H as replies Hreplies.
  injection H as <-. simpl. split; [done |]. f_equal.
  unfold with_id, matched_rows. rewrite !filter_map_comm, length_map. done.
Qed.

Lemma main_rows json_loads to_datetime now ids users lines out :
  Etl.main json_loads to_datetime now ids users lines = Ok out ->
  exists sel data e dated,
    Etl.load_selected_ids ids = Ok sel
    /\ Etl.users_loop sel users = Ok data
    /\ Etl.tweets_loop json_loads sel lines = Ok (Etl.intermediate out)
    /\ Etl.reference_date to_datetime now (Etl.intermediate out) = Ok (dated, e)
    /\ Forall2 (fun u r => exists g,
         Etl.final_of to_datetime e (u, g) = Ok r
         /\ match g with
            | None => matched_rows (Etl.u_user_id u) (Etl.intermediate out) = []
            | Some tf =>
                matched_rows (Etl.u_user_id u) (Etl.intermediate out) <> []
                /\ Etl.g_obs_tweet_count tf
                   = Z.of_nat (length (with_id
                       (matched_rows (Etl.u_user_id u) (Etl.intermediate out))))
            end) data (Etl.final_df out)
    /\ Etl.output_df out = List.map Etl.project (Etl.final_df out).
Proof.
  unfold Etl.main. intros H.
  bind_inv H as sel Hsel. bind_inv H as data Hdata. bind_inv H as csv_rows Hrows.
  bind_inv H as ref Href. destruct ref as [dated e].
  bind_inv H as sized Hsized. bind_inv H as tf Htf. bind_inv H as merged Hmerged.
  bind_inv H as final Hfinal. injection H as <-. simpl.
  exists sel, data, e, dated. do 4 (split; [done |]). split; [| done].
  destruct (decide (data = [])) as [| Hne]; [done |]. injection Hmerged as <-.
  assert (Hfst : List.map fst sized = csv_rows).
  { destruct (reference_date_is_max _ _ _ _ _ Href) as (_ & <- & _).
    eapply for_each_map; [| done].
    intros r y Hy. bind_inv Hy as n Hn. by injection Hy as <-. }
  set (keys := group_keys (List.map (fun r => Etl.t_user_id r.1) sized)) in *.
  set (pick := fun u : Etl.user_row =>
         hd_error (List.filter (fun g => Etl.u_user_id u =? Etl.g_user_id g) tf)).
  assert (Hpick : forall u,
    (matched_rows (Etl.u_user_id u) csv_rows = []
     /\ List.filter (fun g => Etl.u_user_id u =? Etl.g_user_id g) tf = [])
    \/ exists g,
         List.filter (fun g => Etl.u_user_id u =? Etl.g_user_id g) tf = [g]
         /\ Etl.aggregate (Etl.u_user_id u) sized = Ok g
         /\ matched_rows (Etl.u_user_id u) csv_rows <> []).
  { intros u.
    destruct (filter_unique_key Etl.g_user_id (fun k => Etl.aggregate k sized)
                keys tf (Etl.u_user_id u)) as [[Hnin Hf] | [Hin (g & Hflt & Hg)]].
    - intros k g Hg. by apply aggregate_facts in Hg as [? _].
    - apply group_keys_NoDup.
    - by apply for_each_ok.
    - left. split; [| done]. unfold matched_rows.
      destruct (List.filter _ csv_rows) as [| t ts] eqn:Hflt; [done |].
      exfalso. apply Hnin. unfold keys. apply group_keys_elem.
      assert (Ht : In t (List.filter (fun t => Etl.t_user_id t =? Etl.u_user_id u) csv_rows))
        by (rewrite Hflt; left; done).
      apply filter_In in Ht as [Ht Heq]. apply Z.eqb_eq in Heq. rewrite <- Heq.
      rewrite <- Hfst in Ht. apply in_map_iff in Ht as (r & <- & Hr).
      apply list_elem_of_In. apply in_map_iff. by exists r.
    - right. exists g. split; [done |]. split; [done |].
      unfold keys in Hin. apply (proj1 (group_keys_elem _ _)) in Hin.
      apply list_elem_of_In in Hin.
      apply in_map_iff in Hin as (r & Hr & Hin).
      assert (Ht : In r.1 (matched_rows (Etl.u_user_id u) csv_rows)).
      { unfold matched_rows. apply filter_In. split; [| by apply Z.eqb_eq].
        rewrite <- Hfst. by apply in_map. }
      intros Hnil. by rewrite Hnil in Ht. }
  rewrite (merge_left_lookup _ _ _ pick) in Hfinal.
  2:{ intros u _. unfold pick. by destruct (Hpick u) as [[_ ->] | (g & -> & _)]. }
  apply for_each_ok in Hfinal. apply Forall2_fmap_l in Hfinal.
  eapply Forall2_impl; [exact Hfinal |]. simpl. intros u r Hr.
  exists (pick u). split; [done |]. unfold pick.
  destruct (Hpick u) as [[Hm ->] | (g & -> & Hg & Hm)]; simpl; [done |].
  split; [done |]. apply aggregate_facts in Hg as [_ ->]. by rewrite Hfst.
Qed.

(** ** Who is in the feature table *)

Lemma user_step_id sel u o :
  Etl.user_step sel u = Ok o ->
  exists i, profile_id u = Ok i
    /\ match o with
       | Some r => Etl.u_user_id r = i /\ (i ∈ sel)
       | None => i ∉ sel
       end.
Proof.
  unfold Etl.user_step, profile_id. intros H.
  bind_inv H as id Hid. bind_inv H as uid Huid.
  exists uid. rewrite Hid. simpl. split; [done |].
  case_bool_decide as Hin.
  - destruct u; try done. bind_inv H as score Hscore. bind_inv H as ratio Hratio.
    by injection H as <-.
  - by injection H as <-.
Qed.

Lemma users_loop_ids sel users data :
  Etl.users_loop sel users = Ok data ->
  exists pids, for_each profile_id users = Ok pids
    /\ List.map Etl.u_user_id data = List.filter (fun i => bool_decide (i ∈ sel)) pids.
Proof.
  unfold Etl.users_loop. intros H. bind_inv H as rows Hrows. injection H as <-.
  apply for_each_ok in Hrows.
  induction Hrows as [| u o users rows Hu _ (pids & Hp & IH)].
  - by exists [].
  - apply user_step_id in Hu as (i & Hi & Ho). exists (i :: pids).
    split; [simpl; by rewrite Hi, Hp |].
    simpl. destruct o as [r |]; simpl.
    + destruct Ho as [<- Hin]. rewrite bool_decide_eq_true_2 by done.
      unfold omap in *. simpl. by rewrite <- IH.
    + by rewrite bool_decide_eq_false_2.
Qed.

Lemma selected_ids_elem ids sel i :
  Etl.load_selected_ids ids = Ok sel ->
  i ∈ sel <-> exists x, x ∈ ids /\ py_int x = Ok i.
Proof.
  unfold Etl.load_selected_ids. intros H. bind_inv H as l Hl. injection H as <-.
  rewrite elem_of_list_to_set. apply for_each_ok in Hl.
  induction Hl as [| x y ids l Hxy _ IH].
  - split; [by intros ?%elem_of_nil | by intros (? & ?%elem_of_nil & _)].
  - rewrite elem_of_cons, IH. split.
    + intros [-> | (x' & ? & ?)]; [exists x | exists x']; rewrite elem_of_cons; auto.
    + intros (x' & [-> | ?]%elem_of_cons & Hx'); [left; congruence | right; eauto].
Qed.

Lemma final_of_facts to_datetime e u g r :
  Etl.final_of to_datetime e (u, g) = Ok r ->
  Etl.user_id r = Etl.u_user_id u
  /\ Etl.profile_completeness_score r = Etl.u_profile_completeness_score u
  /\ Etl.obs_tweet_count r = from_option Etl.g_obs_tweet_count 0 g
  /\ Etl.user_created_at_dt r
     = match Etl.cell_datetime to_datetime (Etl.u_user_created_at u) with
       | Ok c => c
       | Err _ => None
       end
  /\ Etl.account_age_days r
     = Etl.clip_lower 1 (Etl.days_between e (Etl.user_created_at_dt r))
  /\ Etl.avg_tweets_per_day r
     = Etl.column_div (Etl.obs_tweet_count r) (Etl.account_age_days r)
  /\ (g = None ->
      Etl.total_likes_received r = 0 /\ Etl.total_replies_received r = 0
      /\ Etl.avg_tweet_text_length r = 0%float /\ Etl.obs_tweet_count r = 0).
Proof.
  unfold Etl.final_of. intros H. bind_inv H as created Hcreated.
  injection H as <-. simpl. rewrite Hcreated.
  do 6 (split; [done |]). by intros ->.
Qed.

Lemma count_occ_filter (P : Z -> bool) (l : list Z) (x : Z) :
  count_occ Z.eq_dec (List.filter P l) x
  = if P x then count_occ Z.eq_dec l x else 0%nat.
Proof.
  induction l as [| y l IH]; simpl; [by destruct (P x) |].
  destruct (Z.eq_dec y x) as [-> | Hne].
  - destruct (P x) eqn:HP; simpl; [| done].
    destruct (Z.eq_dec x x); [by rewrite IH | done].
  - destruct (P y) eqn:HP; simpl; [| done].
    destruct (Z.eq_dec y x); [done | by rewrite IH].
Qed.

(** C1, as amended.  When the run completes, the ids of the feature table
    are the integer ids of the profile source, in its order, cut down to
    the selected ones: a selected id has as many rows as the profile source
    has records for it (one row for one record), none is dropped, and a
    row whose user has no matched tweet has its four aggregates at 0. *)
Theorem selected_profiles_kept json_loads to_datetime now ids users lines out :
  Etl.main json_loads to_datetime now ids users lines = Ok out ->
  exists sel pids,
    Etl.load_selected_ids ids = Ok sel
    /\ for_each profile_id users = Ok pids
    /\ List.map Etl.user_id (Etl.final_df out)
       = List.filter (fun i => bool_decide (i ∈ sel)) pids
    /\ List.map Etl.o_user_id (Etl.output_df out)
       = List.filter (fun i => bool_decide (i ∈ sel)) pids
    /\ (forall uid, uid ∈ sel ->
          count_occ Z.eq_dec (List.map Etl.o_user_id (Etl.output_df out)) uid
          = count_occ Z.eq_dec pids uid)
    /\ (forall r, r ∈ Etl.final_df out ->
          matched_rows (Etl.user_id r) (Etl.intermediate out) = [] ->
          Etl.total_likes_received r = 0 /\ Etl.total_replies_received r = 0
          /\ Etl.avg_tweet_text_length r = 0%float /\ Etl.obs_tweet_count r = 0).
Proof.
  intros H.
  destruct (main_rows _ _ _ _ _ _ _ H) as (sel & data & e & dated & Hsel & Hdata & _ & _ & Hrows & Hout).
  destruct (users_loop_ids _ _ _ Hdata) as (pids & Hpids & Hids).
  exists sel, pids. split; [done |]. split; [done |].
  assert (Hfin : List.map Etl.user_id (Etl.final_df out)
                 = List.filter (fun i => bool_decide (i ∈ sel)) pids).
  { rewrite <- Hids. clear -Hrows.
    induction Hrows as [| u r data final (g & Hr & _) _ IH]; simpl; [done |].
    apply final_of_facts in Hr as (-> & _). by rewrite IH. }
  assert (Hprj : List.map Etl.o_user_id (Etl.output_df out)
                 = List.map Etl.user_id (Etl.final_df out)).
  { rewrite Hout, List.map_map. done. }
  split; [done |]. split; [by rewrite Hprj |]. split.
  - intros uid Huid. rewrite Hprj, Hfin, count_occ_filter.
    by rewrite bool_decide_eq_true_2.
  - intros r Hr Hnone. clear -Hrows Hr Hnone.
    induction Hrows as [| u r' data final (g & Hr' & Hg) _ IH];
      [by apply elem_of_nil in Hr |].
    apply elem_of_cons in Hr as [-> | Hr]; [| by apply IH].
    apply final_of_facts in Hr' as (Hid & _ & _ & _ & _ & _ & Hzero).
    apply Hzero. destruct g as [tf |]; [| done].
    destruct Hg as [Hg _]. by rewrite <- Hid in Hg.
Qed.

Lemma selected_profiles_kept_witness :
  Sample.run Sample.all_users Sample.tweet_lines = Ok Sample.run_outputs
  /\ exists sel pids,
       Etl.load_selected_ids Sample.selected_ids_list = Ok sel
       /\ for_each profile_id Sample.all_users = Ok pids
       /\ List.map Etl.user_id (Etl.final_df Sample.run_outputs)
          = List.filter (fun i => bool_decide (i ∈ sel)) pids
       /\ List.map Etl.o_user_id (Etl.output_df Sample.run_outputs)
          = List.filter (fun i => bool_decide (i ∈ sel)) pids
       /\ (forall uid, uid ∈ sel ->
             count_occ Z.eq_dec
               (List.map Etl.o_user_id (Etl.output_df Sample.run_outputs)) uid
             = count_occ Z.eq_dec pids uid)
       /\ (forall r, r ∈ Etl.final_df Sample.run_outputs ->
             matched_rows (Etl.user_id r) (Etl.intermediate Sample.run_outputs) = [] ->
             Etl.total_likes_received r = 0 /\ Etl.total_replies_received r = 0
             /\ Etl.avg_tweet_text_length r = 0%float /\ Etl.obs_tweet_count r = 0).
Proof.
  assert (H : Sample.run Sample.all_users Sample.tweet_lines = Ok Sample.run_outputs)
    by (vm_compute; reflexivity).
  split; [exact H |].
  exact (selected_profiles_kept Readers.json_loads Readers.to_datetime 0
           Sample.selected_ids_list Sample.all_users Sample.tweet_lines
           Sample.run_outputs H).
Defined.

(** C1, as stated, fails: id 1 is selected and the profile source holds
    its record twice; the run completes and the feature table has two rows
    for it. *)
Lemma duplicated_profile_listed_twice :
  (let! out := Sample.run Sample.users_twice Sample.tweet_lines in
   Ok (List.map Etl.o_user_id (Etl.output_df out))) = Ok [1; 1; 7].
Proof. vm_compute. reflexivity. Qed.

(** ** No matched tweet at all *)

(** C4, at the failing input.  When no line of the stream gives a row, the
    frame of tweets has no column and the run stops with [KeyError] where
    it reads [created_at]; the fallback to the clock is never reached. *)
Theorem no_matched_tweet_faults json_loads to_datetime now ids users lines sel data :
  Etl.load_selected_ids ids = Ok sel ->
  Etl.users_loop sel users = Ok data ->
  Etl.tweets_loop json_loads sel lines = Ok [] ->
  Etl.main json_loads to_datetime now ids users lines = Err KeyError.
Proof.
  intros Hsel Hdata Hrows. unfold Etl.main.
  rewrite Hsel. simpl. rewrite Hdata. simpl. by rewrite Hrows.
Qed.

Lemma no_matched_tweet_faults_witness :
  Etl.main Readers.json_loads Readers.to_datetime 0
    Sample.selected_ids_list Sample.all_users ["["; "]"] = Err KeyError.
Proof.
  eapply (no_matched_tweet_faults Readers.json_loads Readers.to_datetime 0
            Sample.selected_ids_list Sample.all_users ["["; "]"]);
    vm_compute; reflexivity.
Defined.

(** ** Account age and the daily rate *)

Lemma clip_lower_ge (lo : Z) (x : option Z) (a : Z) :
  Etl.clip_lower lo x = Some a -> lo <= a.
Proof. destruct x; simpl; intros [= <-]; lia. Qed.

(** C8.  In every row of the final table the account age is never below
    1: it is the whole days from the user's creation to the reference
    date, clipped at 1.  When both dates are there it is an integer of at
    least 1, and it is 1 when the user was created at the reference date. *)
Theorem account_age_at_least_one json_loads to_datetime now ids users lines out r :
  Etl.main json_loads to_datetime now ids users lines = Ok out ->
  r ∈ Etl.final_df out ->
  exists dated e,
    Etl.reference_date to_datetime now (Etl.intermediate out) = Ok (dated, e)
    /\ Etl.account_age_days r
       = Etl.clip_lower 1 (Etl.days_between e (Etl.user_created_at_dt r))
    /\ (forall a, Etl.account_age_days r = Some a -> 1 <= a)
    /\ (forall c m, Etl.user_created_at_dt r = Some c -> e = Some m ->
          exists a, Etl.account_age_days r = Some a /\ 1 <= a)
    /\ (forall c, Etl.user_created_at_dt r = Some c -> e = Some c ->
          Etl.account_age_days r = Some 1).
Proof.
  intros H Hr.
  destruct (main_rows _ _ _ _ _ _ _ H)
    as (sel & data & e & dated & _ & _ & _ & Href & Hrows & _).
  exists dated, e. split; [done |].
  assert (Hage : Etl.account_age_days r
                 = Etl.clip_lower 1 (Etl.days_between e (Etl.user_created_at_dt r))).
  { clear -Hrows Hr.
    induction Hrows as [| u r' data final (g & Hr' & _) _ IH];
      [by apply elem_of_nil in Hr |].
    apply elem_of_cons in Hr as [-> | Hr]; [| by apply IH].
    by apply final_of_facts in Hr' as (_ & _ & _ & _ & ? & _). }
  split; [done |]. rewrite Hage. split; [apply clip_lower_ge |]. split.
  - intros c m -> ->. simpl. eexists. split; [reflexivity | lia].
  - intros c -> ->. simpl. by rewrite Z.sub_diag.
Qed.


Lemma account_age_at_least_one_witness :
  exists r, Sample.first_row = Some r
    /\ Etl.user_created_at_dt r = Some 1578052800000000000
    /\ (forall a, Etl.account_age_days r = Some a -> 1 <= a)
    /\ exists dated,
         Etl.reference_date Readers.to_datetime 0 (Etl.intermediate Sample.run_outputs)
         = Ok (dated, Some 1578052800000000000)
         /\ Etl.account_age_days r = Some 1.
Proof.
  assert (H : Sample.run Sample.all_users Sample.tweet_lines = Ok Sample.run_outputs)
    by (vm_compute; reflexivity).
  destruct Sample.first_row as [r |] eqn:Hfirst; [| discriminate Hfirst].
  assert (Hr : r ∈ Etl.final_df Sample.run_outputs).
  { injection Hfirst as <-. left. }
  destruct (account_age_at_least_one Readers.json_loads Readers.to_datetime 0
              Sample.selected_ids_list Sample.all_users Sample.tweet_lines
              Sample.run_outputs r H Hr)
    as (dated & e & Href & _ & Hge & _ & Hone).
  exists r. injection Hfirst as <-.
  split; [reflexivity |]. split; [reflexivity |]. split; [exact Hge |].
  exists dated.
  assert (He : e = Some 1578052800000000000).
  { vm_compute in Href. by injection Href as _ <-. }
  subst e. split; [exact Href |]. by apply (Hone 1578052800000000000).
Defined.


(** ** Left joins *)

Section MergeLeft.
Context {L R : Type} (matches : L -> R -> bool).

Lemma merge_left_cons (l : L) (left : list L) (right : list R) :
  merge_left matches (l :: left) right
  = ((match List.filter (matches l) right with
      | [] => [(l, None)]
      | ms => List.map (fun r => (l, Some r)) ms
      end) ++ merge_left matches left right)%list.
Proof. reflexivity. Qed.

Lemma merge_left_elem (left : list L) (right : list R) (m : L * option R) :
  m ∈ merge_left matches left right <->
  (m.1 ∈ left) /\ match m.2 with
                 | Some r => (r ∈ right) /\ matches m.1 r = true
                 | None => List.filter (matches m.1) right = []
                 end.
Proof.
  induction left as [| l left IH].
  - simpl. rewrite !elem_of_nil. tauto.
  - rewrite merge_left_cons, elem_of_app, IH, elem_of_cons. clear IH.
    destruct m as [l' o]. simpl.
    assert (Hblock : (l', o) ∈ (match List.filter (matches l) right with
                                | [] => [(l, None)]
                                | ms => List.map (fun r => (l, Some r)) ms
                                end)
                     <-> l' = l /\ match o with
                                  | Some r => (r ∈ right) /\ matches l' r = true
                                  | None => List.filter (matches l') right = []
                                  end).
    { destruct (List.filter (matches l) right) as [| r0 rs] eqn:Hflt.
      - rewrite list_elem_of_singleton. split.
        + by intros [= -> ->].
        + intros [-> Ho]. destruct o as [r |]; [| done]. destruct Ho as [Hr Hm].
          exfalso. apply list_elem_of_In in Hr.
          assert (Hin : In r (List.filter (matches l) right)) by by apply filter_In.
          by rewrite Hflt in Hin.
      - rewrite <- Hflt. rewrite list_elem_of_In, in_map_iff. split.
        + intros (r & [= -> <-] & Hr). apply filter_In in Hr as [Hr Hm].
          by rewrite list_elem_of_In.
        + intros [-> Ho]. destruct o as [r |].
          * destruct Ho as [Hr Hm]. exists r. split; [done |].
            apply filter_In. by rewrite <- list_elem_of_In.
          * by rewrite Ho in Hflt. }
    rewrite Hblock. tauto.
Qed.

(** Every left row is kept. *)
Lemma merge_left_keeps (left : list L) (right : list R) (l : L) :
  l ∈ left -> exists o, (l, o) ∈ merge_left matches left right.
Proof.
  intros Hl. destruct (List.filter (matches l) right) as [| r rs] eqn:Hflt.
  - exists None. apply merge_left_elem. by split.
  - exists (Some r). apply merge_left_elem. split; [done |]. simpl.
    assert (Hin : In r (List.filter (matches l) right)) by (rewrite Hflt; by left).
    apply filter_In in Hin as [Hr Hm]. by rewrite list_elem_of_In.
Qed.


End MergeLeft.

(** ** Stage B: keys *)

Lemma remove_char_no_u (s : string) : no_u s = true -> remove_char "u" s = s.
Proof.
  induction s as [| c s IH]; simpl; [done |].
  intros [Hc Hs]%andb_true_iff. apply negb_true_iff in Hc. rewrite Hc.
  by rewrite IH.
Qed.

Section AugmentFacts.
Context {value : Type} (to_numeric : string -> option Z).

#[local] Abbreviation feature_row := (Augment.feature_row value).
#[local] Abbreviation aug_row := (Augment.aug_row value).
#[local] Abbreviation augment := (Augment.augment value).
#[local] Abbreviation normalize_key := (Augment.normalize_key to_numeric).
#[local] Abbreviation normalize_id := (Augment.normalize_id to_numeric).
#[local] Abbreviation main := (Augment.main value to_numeric).

(** What is known of one row of the merged table. *)
Lemma augment_elem (F : list feature_row) (S L : list Augment.keyed_row) (r : aug_row) :
  r ∈ augment F S L ->
  (Augment.features r ∈ F)
  /\ ((Augment.split r = "unknown")
      \/ ((Some (Augment.user_id (Augment.features r)), Some (Augment.split r)) ∈ S))
  /\ ((Augment.label r = "unknown")
      \/ ((Some (Augment.user_id (Augment.features r)), Some (Augment.label r)) ∈ L))
  /\ ((forall k v, (k, v) ∈ S -> k <> Some (Augment.user_id (Augment.features r))) ->
      Augment.split r = "unknown")
  /\ ((forall k v, (k, v) ∈ L -> k <> Some (Augment.user_id (Augment.features r))) ->
      Augment.label r = "unknown").
Proof.
  unfold Augment.augment. rewrite list_elem_of_In, in_map_iff.
  intros (m & <- & Hm). simpl. apply list_elem_of_In in Hm.
  apply merge_left_elem in Hm as [Hm1 Hl].
  apply merge_left_elem in Hm1 as [Hf Hs].
  assert (Hkey : forall (uid : Z) (row : Augment.keyed_row),
            Augment.key_match uid row.1 = true -> row.1 = Some uid).
  { intros uid [[n |] v]; simpl; [| done]. by intros ->%Z.eqb_eq. }
  split; [done |].
  assert (Hside : forall (T : list Augment.keyed_row) (o : option Augment.keyed_row),
            match o with
            | Some row => (row ∈ T)
                          /\ Augment.key_match (Augment.user_id m.1.1) row.1 = true
            | None => List.filter (fun row => Augment.key_match (Augment.user_id m.1.1) row.1) T = []
            end ->
            ((default "unknown" (o ≫= snd) = "unknown")
             \/ ((Some (Augment.user_id m.1.1), Some (default "unknown" (o ≫= snd))) ∈ T))
            /\ ((forall k v, (k, v) ∈ T -> k <> Some (Augment.user_id m.1.1)) ->
                default "unknown" (o ≫= snd) = "unknown")).
  { intros T [[k v] |]; simpl; [| by split; [left |]].
    intros [Hin Hmatch]. apply (Hkey _ (k, v)) in Hmatch. simpl in Hmatch. subst k.
    split.
    - destruct v as [v |]; simpl; [by right | by left].
    - intros Hno. by destruct (Hno _ _ Hin). }
  destruct (Hside S m.1.2 Hs) as [Hs1 Hs2].
  destruct (Hside L m.2 Hl) as [Hl1 Hl2].
  done.
Qed.

(** Every feature row is somewhere in the merged table. *)
Lemma augment_keeps (F : list feature_row) (S L : list Augment.keyed_row) (f : feature_row) :
  f ∈ F -> exists r, (r ∈ augment F S L) /\ Augment.features r = f.
Proof.
  intros Hf. unfold Augment.augment.
  destruct (merge_left_keeps (fun f r => Augment.key_match (Augment.user_id f) r.1)
              F S f Hf) as (o1 & H1).
  destruct (merge_left_keeps
              (fun (m : feature_row * option Augment.keyed_row) r =>
                 Augment.key_match (Augment.user_id m.1) r.1) _ L _ H1) as (o2 & H2).
  eexists. split.
  - apply list_elem_of_In, in_map_iff. eexists. split; [reflexivity |].
    apply list_elem_of_In. exact H2.
  - done.
Qed.

Lemma subset_elem (df : list aug_row) (name : string) (r : aug_row) :
  r ∈ Augment.subset value df name <-> (r ∈ df) /\ Augment.split r = name.
Proof.
  unfold Augment.subset. rewrite !list_elem_of_In, filter_In.
  by rewrite String.eqb_eq.
Qed.

Lemma main_written (fs : Augment.files value) (F : list feature_row) :
  Augment.final_features_csv fs = Some F ->
  let S := (Augment.load_table to_numeric Augment.SPLIT_PATH "split" (Augment.split_csv fs)).1 in
  let L := (Augment.load_table to_numeric Augment.LABEL_PATH "labels" (Augment.label_csv fs)).1 in
  (main fs).2
  = [(Augment.OUTPUT_FULL, augment F S L);
     (Augment.OUTPUT_TRAIN, Augment.subset value (augment F S L) "train");
     (Augment.OUTPUT_VAL, Augment.subset value (augment F S L) "val");
     (Augment.OUTPUT_TEST, Augment.subset value (augment F S L) "test")].
Proof.
  intros HF. unfold Augment.main. rewrite HF.
  destruct (Augment.load_table _ Augment.SPLIT_PATH _ _) as [S sl].
  destruct (Augment.load_table _ Augment.LABEL_PATH _ _) as [L ll].
  reflexivity.
Qed.

Lemma augment_one_to_one (F : list feature_row) (S L : list Augment.keyed_row) :
  (forall uid, (length (rows_of_key uid S) <= 1)%nat) ->
  (forall uid, (length (rows_of_key uid L) <= 1)%nat) ->
  List.map Augment.features (augment F S L) = F.
Proof.
  intros HS HL. unfold Augment.augment.
  assert (Hpick : forall (T : list Augment.keyed_row) (uid : Z),
            (length (rows_of_key uid T) <= 1)%nat ->
            rows_of_key uid T
            = match head (rows_of_key uid T) with Some r => [r] | None => [] end).
  { intros T uid. destruct (rows_of_key uid T) as [| r [| r' rs]]; simpl; [done | done | lia]. }
  rewrite (merge_left_lookup _ F S (fun f => head (rows_of_key (Augment.user_id f) S)))
    by (intros f _; by apply Hpick).
  rewrite (merge_left_lookup _ _ L
             (fun m => head (rows_of_key (Augment.user_id m.1) L)))
    by (intros m _; by apply (Hpick L)).
  rewrite !List.map_map. simpl. apply List.map_id.
Qed.

Lemma subset_counts (df : list aug_row) :
  (length (Augment.subset value df "train") + length (Augment.subset value df "val")
   + length (Augment.subset value df "test"))%nat
  = length (List.filter (fun r => recognized (Augment.split r)) df).
Proof.
  assert (Hcons : forall (P : aug_row -> bool) r l,
            length (List.filter P (r :: l))
            = ((if P r then 1 else 0) + length (List.filter P l))%nat).
  { intros P r l. simpl. by destruct (P r). }
  unfold Augment.subset, recognized.
  induction df as [| r df IH]; [done |].
  rewrite !Hcons, <- IH.
  destruct (String.eqb_spec (Augment.split r) "train") as [Heq | _];
    [rewrite Heq; simpl; lia |].
  destruct (String.eqb_spec (Augment.split r) "val") as [Heq | _];
    [rewrite Heq; simpl; lia |].
  destruct (String.eqb_spec (Augment.split r) "test") as [Heq | _];
    simpl; lia.
Qed.

(** C6.  The three subsets written by the run are cut out of the merged
    table by equality of the split with "train", "val" and "test"; their
    sizes add up to the number of merged rows with one of these three
    splits; no row is in two of them; a row with "unknown" or any other
    split is in none. *)
Theorem partition_exhaustive_exclusive (fs : Augment.files value) (F : list feature_row) :
  Augment.final_features_csv fs = Some F ->
  exists m train val test,
    (main fs).2 = [(Augment.OUTPUT_FULL, m); (Augment.OUTPUT_TRAIN, train);
                   (Augment.OUTPUT_VAL, val); (Augment.OUTPUT_TEST, test)]
    /\ (forall r, r ∈ train <-> (r ∈ m) /\ Augment.split r = "train")
    /\ (forall r, r ∈ val <-> (r ∈ m) /\ Augment.split r = "val")
    /\ (forall r, r ∈ test <-> (r ∈ m) /\ Augment.split r = "test")
    /\ (length train + length val + length test)%nat
       = length (List.filter (fun r => recognized (Augment.split r)) m)
    /\ (forall r, ~ ((r ∈ train) /\ (r ∈ val)) /\ ~ ((r ∈ train) /\ (r ∈ test))
                  /\ ~ ((r ∈ val) /\ (r ∈ test)))
    /\ (forall r, recognized (Augment.split r) = false ->
          (r ∉ train) /\ (r ∉ val) /\ (r ∉ test)).
Proof.
  intros HF. do 4 eexists. split; [by apply main_written |].
  split; [apply subset_elem |]. split; [apply subset_elem |].
  split; [apply subset_elem |]. split; [apply subset_counts |]. split.
  - intros r. rewrite !subset_elem.
    repeat split; intros [[_ H1] [_ H2]]; rewrite H1 in H2; discriminate H2.
  - intros r Hr. rewrite !subset_elem. unfold recognized in Hr.
    repeat split; intros [_ H]; rewrite H in Hr; discriminate Hr.
Qed.


(** C10.  Every row of every table the run writes carries, for its user
    id and six feature columns, a row of the feature table as it was read;
    every row read is in the full table; and when no key comes twice in
    the split table or in the label table, the full table without its two
    new columns is the feature table itself. *)
Theorem features_unchanged (fs : Augment.files value) (F : list feature_row) :
  Augment.final_features_csv fs = Some F ->
  (forall file rows r, (file, rows) ∈ (main fs).2 -> r ∈ rows ->
     Augment.features r ∈ F)
  /\ exists m rest,
       (main fs).2 = (Augment.OUTPUT_FULL, m) :: rest
       /\ (forall f, f ∈ F -> exists r, (r ∈ m) /\ Augment.features r = f)
       /\ (forall S L,
             (Augment.load_table to_numeric Augment.SPLIT_PATH "split"
                (Augment.split_csv fs)).1 = S ->
             (Augment.load_table to_numeric Augment.LABEL_PATH "labels"
                (Augment.label_csv fs)).1 = L ->
             (forall uid, (length (rows_of_key uid S) <= 1)%nat) ->
             (forall uid, (length (rows_of_key uid L) <= 1)%nat) ->
             List.map Augment.features m = F).
Proof.
  intros HF. split.
  - intros file rows r Hin Hr. rewrite (main_written fs F HF) in Hin.
    assert (Hm : r ∈ augment F
              (Augment.load_table to_numeric Augment.SPLIT_PATH "split"
                 (Augment.split_csv fs)).1
              (Augment.load_table to_numeric Augment.LABEL_PATH "labels"
                 (Augment.label_csv fs)).1).
    { repeat (apply elem_of_cons in Hin as [[= -> ->] | Hin];
              [first [exact Hr | by apply subset_elem in Hr as [? _]] |]).
      by apply elem_of_nil in Hin. }
    by apply augment_elem in Hm as [? _].
  - do 2 eexists. split; [by apply main_written |].
    split; [intros f Hf; by apply augment_keeps |].
    intros S L <- <-. apply augment_one_to_one.
Qed.


End AugmentFacts.

Lemma partition_exhaustive_exclusive_witness :
  Augment.final_features_csv Sample.stage_b_files = Some Sample.df_features
  /\ exists m train val test,
       (Augment.main float Readers.to_numeric Sample.stage_b_files).2
       = [(Augment.OUTPUT_FULL, m); (Augment.OUTPUT_TRAIN, train);
          (Augment.OUTPUT_VAL, val); (Augment.OUTPUT_TEST, test)]
       /\ (length train + length val + length test)%nat
          = length (List.filter (fun r => recognized (Augment.split r)) m)
       /\ (forall r, recognized (Augment.split r) = false ->
             (r ∉ train) /\ (r ∉ val) /\ (r ∉ test)).
Proof.
  split; [reflexivity |].
  destruct (partition_exhaustive_exclusive Readers.to_numeric
              Sample.stage_b_files Sample.df_features eq_refl)
    as (m & train & val & test & Hw & _ & _ & _ & Hcount & _ & Hout).
  by exists m, train, val, test.
Defined.


Lemma features_unchanged_witness :
  Augment.final_features_csv Sample.stage_b_files = Some Sample.df_features
  /\ (forall file rows r,
        (file, rows) ∈ (Augment.main float Readers.to_numeric Sample.stage_b_files).2 ->
        r ∈ rows -> Augment.features r ∈ Sample.df_features)
  /\ exists m rest,
       (Augment.main float Readers.to_numeric Sample.stage_b_files).2
       = (Augment.OUTPUT_FULL, m) :: rest
       /\ List.map Augment.features m = Sample.df_features.
Proof.
  split; [reflexivity |].
  destruct (features_unchanged Readers.to_numeric
              Sample.stage_b_files Sample.df_features eq_refl)
    as (Hin & m & rest & Hw & _ & Hsame).
  split; [exact Hin |]. exists m, rest. split; [exact Hw |].
  apply (Hsame _ _ eq_refl eq_refl); intros uid; unfold rows_of_key; simpl;
    repeat (match goal with
            | |- context [uid =? ?k] => destruct (Z.eqb_spec uid k); [subst uid |]
            end; simpl);
    lia.
Defined.



(** ** A run on records of the data model completes *)

Lemma for_each_total {A B} (f : A -> result B) (P : B -> Prop) (l : list A) :
  Forall (fun x => exists y, f x = Ok y /\ P y) l ->
  exists ys, for_each f l = Ok ys /\ Forall P ys.
Proof.
  induction 1 as [| x l (y & Hy & HP) _ (ys & Hys & HPs)]; simpl.
  - by exists [].
  - exists (y :: ys). rewrite Hy, Hys. split; [done | by constructor].
Qed.



Section Completes.
Context (json_loads : string -> option json)
        (to_datetime : string -> result (option Z)) (now : Z).





End Completes.

Example sample_inputs_are_records :
  forallb (user_record Readers.to_datetime) Sample.all_users = true
  /\ forallb (tweet_line Readers.json_loads Readers.to_datetime) Sample.tweet_lines = true.
Proof. split; vm_compute; reflexivity. Qed.

(** * Further properties of the code *)

(** ** Loops that stop *)

Lemma for_each_err {A B} (f : A -> result B) (l : list A) (x : A) :
  x ∈ l -> is_ok (f x) = false -> is_ok (for_each f l) = false.
Proof.
  induction l as [| y l IH]; [by intros ?%elem_of_nil |].
  intros [<- | Hin]%elem_of_cons Hx; simpl.
  - by destruct (f x).
  - destruct (f y); [| done]. simpl. specialize (IH Hin Hx).
    by destruct (for_each f l).
Qed.

Lemma for_each_all_ok {A B} (f : A -> result B) (l : list A) :
  (forall x, x ∈ l -> is_ok (f x) = true) -> is_ok (for_each f l) = true.
Proof.
  intros H. destruct (for_each_total f (fun _ => True) l) as (ys & -> & _); [| done].
  apply Forall_forall. intros x Hx. specialize (H x Hx).
  destruct (f x) as [y |]; [by exists y | done].
Qed.

Lemma for_each_comp {A B C} (f : B -> result C) (g : A -> B) (l : list A) :
  for_each (fun x => f (g x)) l = for_each f (List.map g l).
Proof. induction l as [| x l IH]; simpl; [done |]. by rewrite IH. Qed.

(** ** The selected ids (lines 14-17) *)

(** X1.  The selected set holds exactly the integers that [int] makes of
    the entries of the list, whether they are written as numbers or as
    numeric strings and however often; one entry that [int] refuses stops
    the loading, and nothing else does. *)
Theorem selected_ids_by_value (ids : list json) :
  (forall sel, Etl.load_selected_ids ids = Ok sel ->
     forall i, i ∈ sel <-> exists x, (x ∈ ids) /\ py_int x = Ok i)
  /\ (forall x, x ∈ ids -> is_ok (py_int x) = false ->
        is_ok (Etl.load_selected_ids ids) = false)
  /\ ((forall x, x ∈ ids -> is_ok (py_int x) = true) ->
        is_ok (Etl.load_selected_ids ids) = true).
Proof.
  split; [intros sel Hsel i; by apply selected_ids_elem |]. split.
  - intros x Hx Hbad. unfold Etl.load_selected_ids.
    pose proof (for_each_err py_int ids x Hx Hbad) as H.
    by destruct (for_each py_int ids).
  - intros Hall. unfold Etl.load_selected_ids.
    pose proof (for_each_all_ok py_int ids Hall) as H.
    by destruct (for_each py_int ids).
Qed.

(** ** The follower ratio (lines 61-68) *)

(** X2.  When the following count is an integer that is zero or less, or
    is left out, the ratio is 0.0 whatever the follower count holds, and
    nothing is divided; when it is positive and the follower count is an
    integer, both within the integers that binary64 holds exactly, the
    ratio is their float64 quotient. *)
Theorem follower_ratio_cases (u m : list (string * json)) (n : Z) :
  metrics_of u = JObj m ->
  default (JInt 0) (assoc "following_count" m) = JInt n ->
  (n <= 0 -> Etl.follower_ratio u = Ok 0%float)
  /\ (0 < n -> forall k,
        default (JInt 0) (assoc "followers_count" m) = JInt k ->
        Z.abs k <= 2 ^ 53 -> n <= 2 ^ 53 ->
        Etl.follower_ratio u = Ok (PrimFloat.div (float_of_Z k) (float_of_Z n))).
Proof.
  unfold metrics_of, Etl.follower_ratio. simpl. intros -> Hn. simpl. rewrite Hn.
  simpl. split.
  - intros Hle. by rewrite (proj2 (Z.ltb_ge 0 n) Hle).
  - intros Hlt k -> _ _. by rewrite (proj2 (Z.ltb_lt 0 n) Hlt).
Qed.

Lemma follower_ratio_cases_witness :
  metrics_of Sample.full_user
  = JObj [("followers_count", JInt 10); ("following_count", JInt 4)]
  /\ Etl.follower_ratio Sample.full_user
     = Ok (PrimFloat.div (float_of_Z 10) (float_of_Z 4)).
Proof.
  split; [reflexivity |].
  destruct (follower_ratio_cases Sample.full_user
              [("followers_count", JInt 10); ("following_count", JInt 4)] 4
              eq_refl eq_refl) as [_ H].
  apply H; [lia | reflexivity | |]; vm_compute; discriminate.
Defined.

(** ** The score on any record (lines 40-58) *)

(** X3.  The score raises in one case only: a description that is a
    number or a boolean, on which [len] raises [TypeError].  On every other
    record, whatever the types of its fields, it is an integer from 0 to
    5. *)
Theorem completeness_raises_only_on_unsized (u : list (string * json)) :
  (forall e, Etl.completeness u = Err e <->
             e = TypeError /\ unsized (dict_get u "description") = true)
  /\ (forall n, Etl.completeness u = Ok n -> 0 <= n <= 5).
Proof.
  unfold Etl.completeness.
  destruct (dict_get u "description") as [| b | k | f | s | l | o]; simpl;
    try (destruct s; simpl); try (destruct l; simpl); try (destruct o; simpl);
    (split; [intros e; split; [intros [= <-] || intros [=]; done
                              | intros [-> H]; done || discriminate H]
            | intros n [= <-] || intros n [=];
              destruct (is_True _), (is_None (dict_get u "profile_image_url")),
                (is_None (dict_get u "location")); lia]).
Qed.

(** ** The profile loop (lines 27-31) *)

Lemma user_step_profile_id (sel : gset Z) (u : json) :
  is_ok (profile_id u) = false -> is_ok (Etl.user_step sel u) = false.
Proof.
  unfold profile_id, Etl.user_step.
  destruct (getitem u "id") as [id |]; simpl; [| done].
  by destruct (py_int id).
Qed.

Lemma user_step_unselected (sel : gset Z) (u : json) (i : Z) :
  profile_id u = Ok i -> i ∉ sel -> Etl.user_step sel u = Ok None.
Proof.
  unfold profile_id, Etl.user_step.
  destruct (getitem u "id") as [id |]; simpl; [| done].
  intros -> Hi. simpl. by rewrite bool_decide_eq_false_2.
Qed.

(** X4.  The id of every record of the profile source is read and
    converted, selected or not: one record without an id, or with an id
    that [int] refuses, stops the run. *)
Theorem every_profile_id_is_read json_loads to_datetime now ids users lines u :
  u ∈ users ->
  is_ok (profile_id u) = false ->
  is_ok (Etl.main json_loads to_datetime now ids users lines) = false.
Proof.
  intros Hu Hbad. unfold Etl.main.
  destruct (Etl.load_selected_ids ids) as [sel |]; simpl; [| done].
  unfold Etl.users_loop.
  pose proof (for_each_err (Etl.user_step sel) users u Hu
                (user_step_profile_id sel u Hbad)) as H.
  by destruct (for_each (Etl.user_step sel) users).
Qed.

Lemma every_profile_id_is_read_witness :
  is_ok (profile_id (JObj [("verified", JBool true)])) = false
  /\ is_ok (Etl.main Readers.json_loads Readers.to_datetime 0
              Sample.selected_ids_list More.users_without_id Sample.tweet_lines)
     = false.
Proof.
  split; [reflexivity |].
  apply (every_profile_id_is_read Readers.json_loads Readers.to_datetime 0
           Sample.selected_ids_list More.users_without_id Sample.tweet_lines
           (JObj [("verified", JBool true)])); [| reflexivity].
  apply list_elem_of_In. simpl. auto 10.
Defined.

(** X5.  Beyond its id, the record of a user that is not selected is not
    read: with or without it the run gives the same result, whatever else
    the record holds or lacks. *)
Theorem unselected_profile_ignored json_loads to_datetime now ids before after lines u i :
  profile_id u = Ok i ->
  (forall x, x ∈ ids -> py_int x <> Ok i) ->
  Etl.main json_loads to_datetime now ids (before ++ u :: after) lines
  = Etl.main json_loads to_datetime now ids (before ++ after) lines.
Proof.
  intros Hi Hids. unfold Etl.main.
  destruct (Etl.load_selected_ids ids) as [sel |] eqn:Hsel; simpl; [| done].
  assert (Hnot : i ∉ sel).
  { intros Hin. apply (selected_ids_elem _ _ _ Hsel) in Hin as (x & Hx & Hxi).
    by apply (Hids x). }
  unfold Etl.users_loop.
  by rewrite (for_each_skip (Etl.user_step sel) before u after
                (user_step_unselected sel u i Hi Hnot)).
Qed.

Lemma unselected_profile_ignored_witness :
  profile_id (JObj [("id", JStr "44"); ("description", JInt 3)]) = Ok 44
  /\ Etl.main Readers.json_loads Readers.to_datetime 0 Sample.selected_ids_list
       (Sample.all_users ++ JObj [("id", JStr "44"); ("description", JInt 3)] :: [])
       Sample.tweet_lines
     = Etl.main Readers.json_loads Readers.to_datetime 0 Sample.selected_ids_list
         (Sample.all_users ++ []) Sample.tweet_lines.
Proof.
  split; [reflexivity |].
  apply (unselected_profile_ignored Readers.json_loads Readers.to_datetime 0
           Sample.selected_ids_list Sample.all_users [] Sample.tweet_lines
           (JObj [("id", JStr "44"); ("description", JInt 3)]) 44 eq_refl).
  intros x Hx. apply list_elem_of_In in Hx. simpl in Hx.
  destruct Hx as [<- | [<- | [<- | []]]]; discriminate.
Defined.

(** ** The tweet loop (lines 104-131) *)

Lemma tweet_step_unselected json_loads (sel : gset Z) (line : string) (a : Z) :
  author_of json_loads line = Ok a -> a ∉ sel ->
  Etl.tweet_step json_loads sel line = Ok None.
Proof.
  unfold author_of, Etl.tweet_step.
  destruct (is_None (Etl.parse_line json_loads line)); [done |].
  destruct (getitem _ "author_id") as [x |]; simpl; [| done].
  intros -> Ha. simpl. by rewrite bool_decide_eq_false_2.
Qed.

(** X6.  A tweet whose author is not selected leaves no trace: with or
    without its line the run gives the same result, even when the record
    lacks its id, text or date. *)
Theorem unselected_tweet_ignored json_loads to_datetime now ids users before after line a :
  author_of json_loads line = Ok a ->
  (forall x, x ∈ ids -> py_int x <> Ok a) ->
  Etl.main json_loads to_datetime now ids users (before ++ line :: after)
  = Etl.main json_loads to_datetime now ids users (before ++ after).
Proof.
  intros Ha Hids. unfold Etl.main.
  destruct (Etl.load_selected_ids ids) as [sel |] eqn:Hsel; simpl; [| done].
  assert (Hnot : a ∉ sel).
  { intros Hin. apply (selected_ids_elem _ _ _ Hsel) in Hin as (x & Hx & Hxa).
    by apply (Hids x). }
  destruct (Etl.users_loop sel users) as [data |]; simpl; [| done].
  unfold Etl.tweets_loop.
  by rewrite (for_each_skip (Etl.tweet_step json_loads sel) before line after
                (tweet_step_unselected json_loads sel line a Ha Hnot)).
Qed.

Lemma unselected_tweet_ignored_witness :
  author_of Readers.json_loads (Readers.q "{'author_id': '88'}") = Ok 88
  /\ Etl.main Readers.json_loads Readers.to_datetime 0 Sample.selected_ids_list
       Sample.all_users (Sample.tweet_lines ++ Readers.q "{'author_id': '88'}" :: [])
     = Etl.main Readers.json_loads Readers.to_datetime 0 Sample.selected_ids_list
         Sample.all_users (Sample.tweet_lines ++ []).
Proof.
  assert (H : author_of Readers.json_loads (Readers.q "{'author_id': '88'}") = Ok 88)
    by (vm_compute; reflexivity).
  split; [exact H |].
  apply (unselected_tweet_ignored Readers.json_loads Readers.to_datetime 0
           Sample.selected_ids_list Sample.all_users Sample.tweet_lines []
           (Readers.q "{'author_id': '88'}") 88 H).
  intros x Hx. apply list_elem_of_In in Hx. simpl in Hx.
  destruct Hx as [<- | [<- | [<- | []]]]; discriminate.
Defined.


(** ** The run of Stage A, with its aggregates *)

(** Rows that carry a computed cell beside them. *)
Lemma tagged_rows {A} (h : A -> result Z) (l : list A) (s : list (A * Z)) :
  for_each (fun t => let! n := h t in Ok (t, n)) l = Ok s ->
  List.map fst s = l
  /\ for_each h l = Ok (List.map snd s)
  /\ forall P : A -> bool,
       for_each (fun t => let! n := h t in Ok (t, n)) (List.filter P l)
       = Ok (List.filter (fun r => P r.1) s).
Proof.
  rewrite for_each_ok. induction 1 as [| t r l s Htr _ (IH1 & IH2 & IH3)].
  - done.
  - bind_inv Htr as n Hn. injection Htr as <-. simpl. rewrite IH1, Hn. simpl.
    rewrite IH2. simpl. split; [done |]. split; [done |].
    intros P. destruct (P t); simpl; [| apply IH3].
    rewrite Hn. simpl. by rewrite IH3.
Qed.

Lemma aggregate_sums (k : Z) (inter : list Etl.tweet_row)
    (sized : list (Etl.tweet_row * Z)) (tf : Etl.tweet_feature) :
  for_each (fun t => let! n := Etl.text_len (Etl.t_tweet_text t) in Ok (t, n)) inter
  = Ok sized ->
  Etl.aggregate k sized = Ok tf ->
  exists likes replies lens,
    for_each Etl.int64_cell (List.map Etl.t_like_count (matched_rows k inter)) = Ok likes
    /\ for_each Etl.int64_cell (List.map Etl.t_reply_count (matched_rows k inter))
       = Ok replies
    /\ for_each Etl.text_len (List.map Etl.t_tweet_text (matched_rows k inter)) = Ok lens
    /\ Etl.g_total_likes_received tf = wrap64 (Zsum likes)
    /\ Etl.g_total_replies_received tf = wrap64 (Zsum replies)
    /\ Etl.g_avg_tweet_text_length tf
       = PrimFloat.div (float_of_Z (Zsum lens))
           (float_of_Z (Z.of_nat (length (matched_rows k inter)))).
Proof.
  intros Hsized Hagg.
  destruct (tagged_rows _ _ _ Hsized) as (_ & _ & Hflt).
  specialize (Hflt (fun t => Etl.t_user_id t =? k)).
  fold (matched_rows k inter) in Hflt.
  destruct (tagged_rows _ _ _ Hflt) as (Hfst & Hlens & _).
  unfold Etl.aggregate in Hagg.
  set (g := List.filter (fun r : Etl.tweet_row * Z => Etl.t_user_id r.1 =? k) sized) in *.
  bind_inv Hagg as likes Hlikes. bind_inv Hagg as replies Hreplies.
  injection Hagg as <-. simpl.
  exists likes, replies, (List.map snd g).
  split. { rewrite <- Hfst, <- !for_each_comp. exact Hlikes. }
  split. { rewrite <- Hfst, <- !for_each_comp. exact Hreplies. }
  split. { rewrite <- for_each_comp. exact Hlens. }
  split; [done |]. split; [done |].
  by rewrite <- Hfst, length_map.
Qed.

Lemma main_parts json_loads to_datetime now ids users lines out :
  Etl.main json_loads to_datetime now ids users lines = Ok out ->
  exists sel data e dated sized,
    Etl.load_selected_ids ids = Ok sel
    /\ Etl.users_loop sel users = Ok data
    /\ Etl.tweets_loop json_loads sel lines = Ok (Etl.intermediate out)
    /\ Etl.reference_date to_datetime now (Etl.intermediate out) = Ok (dated, e)
    /\ for_each (fun t => let! n := Etl.text_len (Etl.t_tweet_text t) in Ok (t, n))
         (Etl.intermediate out) = Ok sized
    /\ Forall2 (fun u r => exists g,
         Etl.final_of to_datetime e (u, g) = Ok r
         /\ match g with
            | None => matched_rows (Etl.u_user_id u) (Etl.intermediate out) = []
            | Some tf =>
                matched_rows (Etl.u_user_id u) (Etl.intermediate out) <> []
                /\ Etl.aggregate (Etl.u_user_id u) sized = Ok tf
            end) data (Etl.final_df out)
    /\ Etl.output_df out = List.map Etl.project (Etl.final_df out).
Proof.
  unfold Etl.main. intros H.
  bind_inv H as sel Hsel. bind_inv H as data Hdata. bind_inv H as csv_rows Hrows.
  bind_inv H as ref Href. destruct ref as [dated e].
  bind_inv H as sized Hsized. bind_inv H as tf Htf. bind_inv H as merged Hmerged.
  bind_inv H as final Hfinal. injection H as <-. simpl.
  exists sel, data, e, dated, sized. do 4 (split; [done |]).
  destruct (reference_date_is_max _ _ _ _ _ Href) as (_ & Hdated & _).
  assert (Htagged : for_each (fun t => let! n := Etl.text_len (Etl.t_tweet_text t) in
                                       Ok (t, n)) csv_rows = Ok sized).
  { rewrite <- Hdated, <- for_each_comp. exact Hsized. }
  split; [done |]. split; [| done].
  destruct (decide (data = [])) as [| Hne]; [done |]. injection Hmerged as <-.
  destruct (tagged_rows _ _ _ Htagged) as (Hfst & _ & _).
  set (keys := group_keys (List.map (fun r => Etl.t_user_id r.1) sized)) in *.
  set (pick := fun u : Etl.user_row =>
         hd_error (List.filter (fun g => Etl.u_user_id u =? Etl.g_user_id g) tf)).
  assert (Hpick : forall u,
    (matched_rows (Etl.u_user_id u) csv_rows = []
     /\ List.filter (fun g => Etl.u_user_id u =? Etl.g_user_id g) tf = [])
    \/ exists g,
         List.filter (fun g => Etl.u_user_id u =? Etl.g_user_id g) tf = [g]
         /\ Etl.aggregate (Etl.u_user_id u) sized = Ok g
         /\ matched_rows (Etl.u_user_id u) csv_rows <> []).
  { intros u.
    destruct (filter_unique_key Etl.g_user_id (fun k => Etl.aggregate k sized)
                keys tf (Etl.u_user_id u)) as [[Hnin Hf] | [Hin (g & Hflt & Hg)]].
    - intros k g Hg. by apply aggregate_facts in Hg as [? _].
    - apply group_keys_NoDup.
    - by apply for_each_ok.
    - left. split; [| done]. unfold matched_rows.
      destruct (List.filter _ csv_rows) as [| t ts] eqn:Hflt; [done |].
      exfalso. apply Hnin. unfold keys. apply group_keys_elem.
      assert (Ht : In t (List.filter (fun t => Etl.t_user_id t =? Etl.u_user_id u) csv_rows))
        by (rewrite Hflt; left; done).
      apply filter_In in Ht as [Ht Heq]. apply Z.eqb_eq in Heq. rewrite <- Heq.
      rewrite <- Hfst in Ht. apply in_map_iff in Ht as (r & <- & Hr).
      apply list_elem_of_In. apply in_map_iff. by exists r.
    - right. exists g. split; [done |]. split; [done |].
      unfold keys in Hin. apply (proj1 (group_keys_elem _ _)) in Hin.
      apply list_elem_of_In in Hin.
      apply in_map_iff in Hin as (r & Hr & Hin).
      assert (Ht : In r.1 (matched_rows (Etl.u_user_id u) csv_rows)).
      { unfold matched_rows. apply filter_In. split; [| by apply Z.eqb_eq].
        rewrite <- Hfst. by apply in_map. }
      intros Hnil. by rewrite Hnil in Ht. }
  rewrite (merge_left_lookup _ _ _ pick) in Hfinal.
  2:{ intros u _. unfold pick. by destruct (Hpick u) as [[_ ->] | (g & -> & _)]. }
  apply for_each_ok in Hfinal. apply Forall2_fmap_l in Hfinal.
  eapply Forall2_impl; [exact Hfinal |]. simpl. intros u r Hr.
  exists (pick u). split; [done |]. unfold pick.
  by destruct (Hpick u) as [[Hm ->] | (g & -> & Hg & Hm)].
Qed.

(** A row of the final frame with the row of [users_data] it comes from. *)
Lemma final_row_origin {P : Etl.user_row -> Etl.final_row -> Prop}
    (data : list Etl.user_row) (final : list Etl.final_row) (r : Etl.final_row) :
  Forall2 P data final -> r ∈ final -> exists u, (u ∈ data) /\ P u r.
Proof.
  induction 1 as [| u r' data final HP _ IH]; [by intros ?%elem_of_nil |].
  intros [-> | Hr]%elem_of_cons.
  - exists u. split; [left | done].
  - destruct (IH Hr) as (u' & ? & ?). exists u'. split; [by right | done].
Qed.


Lemma final_of_aggregates to_datetime e u g r :
  Etl.final_of to_datetime e (u, g) = Ok r ->
  Etl.user_id r = Etl.u_user_id u
  /\ Etl.follower_following_ratio r = Etl.u_follower_following_ratio u
  /\ Etl.user_created_at r = Etl.u_user_created_at u
  /\ Etl.total_likes_received r = from_option Etl.g_total_likes_received 0 g
  /\ Etl.total_replies_received r = from_option Etl.g_total_replies_received 0 g
  /\ Etl.avg_tweet_text_length r = from_option Etl.g_avg_tweet_text_length 0%float g.
Proof.
  unfold Etl.final_of. intros H. bind_inv H as created Hcreated.
  by injection H as <-.
Qed.

(** ** The aggregates (lines 160-175) *)


Lemma sample_run_ok :
  Sample.run Sample.all_users Sample.tweet_lines = Ok Sample.run_outputs.
Proof. vm_compute. reflexivity. Qed.

Lemma user1_row_in_run : More.user1_row ∈ Etl.final_df Sample.run_outputs.
Proof. apply list_elem_of_In. vm_compute. left. reflexivity. Qed.


(** X9.  For a user with matched tweets, the average text length of the
    final row is the float64 quotient of the sum of [len] over the texts
    of the user's rows by the number of those rows, a missing text counting
    as the empty string (the sum within the integers that binary64 holds
    exactly). *)
Theorem average_text_length_is_mean json_loads to_datetime now ids users lines out r :
  Etl.main json_loads to_datetime now ids users lines = Ok out ->
  r ∈ Etl.final_df out ->
  matched_rows (Etl.user_id r) (Etl.intermediate out) <> [] ->
  Etl.text_len JNull = Ok 0
  /\ (forall s, Etl.text_len (JStr s) = Ok (Z.of_nat (String.length s)))
  /\ exists lens,
       for_each Etl.text_len
         (List.map Etl.t_tweet_text (matched_rows (Etl.user_id r) (Etl.intermediate out)))
       = Ok lens
       /\ (Zsum lens <= 2 ^ 53 ->
           Etl.avg_tweet_text_length r
           = PrimFloat.div (float_of_Z (Zsum lens))
               (float_of_Z (Z.of_nat (length
                  (matched_rows (Etl.user_id r) (Etl.intermediate out))))))
       /\ Etl.o_avg_tweet_text_length (Etl.project r) = Etl.avg_tweet_text_length r.
Proof.
  intros H Hr Hne. split; [done |]. split; [done |].
  destruct (main_parts _ _ _ _ _ _ _ H)
    as (sel & data & e & dated & sized & _ & _ & _ & _ & Hsized & Hrows & _).
  destruct (final_row_origin _ _ _ Hrows Hr) as (u & _ & g & Hfin & Hg).
  apply final_of_aggregates in Hfin as (Hid & _ & _ & _ & _ & Havg).
  rewrite Hid in Hne |- *. destruct g as [tf |]; [| done]. destruct Hg as [_ Hagg].
  destruct (aggregate_sums _ _ _ _ Hsized Hagg)
    as (likes & replies & lens & _ & _ & Hlens & _ & _ & Hmean).
  exists lens. simpl in Havg. rewrite Hmean in Havg. done.
Qed.

Lemma average_text_length_is_mean_witness :
  matched_rows (Etl.user_id More.user1_row) (Etl.intermediate Sample.run_outputs) <> []
  /\ Etl.avg_tweet_text_length More.user1_row
     = PrimFloat.div (float_of_Z (5 + 3)) (float_of_Z 2).
Proof.
  assert (Hne : matched_rows (Etl.user_id More.user1_row)
                  (Etl.intermediate Sample.run_outputs) <> [])
    by (intros Hnil; vm_compute in Hnil; discriminate Hnil).
  split; [exact Hne |].
  destruct (average_text_length_is_mean Readers.json_loads Readers.to_datetime 0
              Sample.selected_ids_list Sample.all_users Sample.tweet_lines
              Sample.run_outputs More.user1_row sample_run_ok user1_row_in_run Hne)
    as (_ & _ & lens & Hlens & Havg & _).
  vm_compute in Hlens. injection Hlens as <-.
  apply Havg. vm_compute. discriminate.
Defined.

(** ** From the profile record to the feature row (lines 27-79, 179, 218) *)

Lemma Forall2_chain {A B C} (P : A -> B -> Prop) (Q : B -> C -> Prop)
    (l1 : list A) (l2 : list B) (l3 : list C) :
  Forall2 P l1 l2 -> Forall2 Q l2 l3 ->
  Forall2 (fun x z => exists y, P x y /\ Q y z) l1 l3.
Proof.
  intros H. revert l3. induction H as [| x y l1 l2 HP _ IH]; intros l3 HQ.
  - inversion HQ. constructor.
  - inversion HQ as [| ? z ? l3' HQ1 HQ2]; subst. constructor; [by exists y | by apply IH].
Qed.

Lemma user_step_outcome (sel : gset Z) (u : json) (o' : option Etl.user_row) :
  Etl.user_step sel u = Ok o' ->
  match o' with
  | Some row =>
      match profile_id u with Ok i => bool_decide (i ∈ sel) | Err _ => false end = true
      /\ exists o,
           u = JObj o
           /\ profile_id u = Ok (Etl.u_user_id row)
           /\ Etl.completeness o = Ok (Etl.u_profile_completeness_score row)
           /\ Etl.follower_ratio o = Ok (Etl.u_follower_following_ratio row)
           /\ Etl.u_user_created_at row = dict_get o "created_at"
  | None =>
      match profile_id u with Ok i => bool_decide (i ∈ sel) | Err _ => false end = false
  end.
Proof.
  unfold Etl.user_step, profile_id.
  destruct (getitem u "id") as [id |]; [| done]. simpl.
  destruct (py_int id) as [uid |]; [| done]. simpl.
  case_bool_decide as Hin; intros H.
  - destruct u as [| | | | | | o]; try done.
    bind_inv H as score Hscore. bind_inv H as ratio Hratio.
    injection H as <-. simpl. split; [done |]. by exists o.
  - by injection H as <-.
Qed.

Lemma users_loop_records (sel : gset Z) (users : list json) (data : list Etl.user_row) :
  Etl.users_loop sel users = Ok data ->
  Forall2 (fun u row => exists o,
      u = JObj o
      /\ profile_id u = Ok (Etl.u_user_id row)
      /\ Etl.completeness o = Ok (Etl.u_profile_completeness_score row)
      /\ Etl.follower_ratio o = Ok (Etl.u_follower_following_ratio row)
      /\ Etl.u_user_created_at row = dict_get o "created_at")
    (selected_records sel users) data.
Proof.
  unfold Etl.users_loop. intros H. bind_inv H as rows Hrows. injection H as <-.
  apply for_each_ok in Hrows. unfold selected_records.
  induction Hrows as [| u o' users rows Hu _ IH]; [constructor |].
  apply user_step_outcome in Hu. simpl.
  destruct o' as [row |].
  - destruct Hu as [-> Hrow]. unfold omap. simpl. by constructor.
  - by rewrite Hu.
Qed.

(** X10.  The written table has one row per selected record of the
    profile source, in its order, and each row carries the id, the
    completeness score and the follower ratio computed from that very
    record. *)
Theorem feature_rows_carry_their_profile json_loads to_datetime now ids users lines out :
  Etl.main json_loads to_datetime now ids users lines = Ok out ->
  exists sel,
    Etl.load_selected_ids ids = Ok sel
    /\ Forall2 (fun u p => exists o,
         u = JObj o
         /\ profile_id u = Ok (Etl.o_user_id p)
         /\ Etl.completeness o = Ok (Etl.o_profile_completeness_score p)
         /\ Etl.follower_ratio o = Ok (Etl.o_follower_following_ratio p))
       (selected_records sel users) (Etl.output_df out).
Proof.
  intros H.
  destruct (main_parts _ _ _ _ _ _ _ H)
    as (sel & data & e & dated & sized & Hsel & Hdata & _ & _ & _ & Hrows & Hout).
  exists sel. split; [done |]. rewrite Hout. apply Forall2_fmap_r.
  eapply Forall2_impl;
    [exact (Forall2_chain _ _ _ _ _ (users_loop_records _ _ _ Hdata) Hrows) |].
  simpl. intros u r (row & (o & -> & Hid & Hscore & Hratio & _) & g & Hfin & _).
  exists o. split; [done |].
  pose proof (final_of_facts _ _ _ _ _ Hfin) as (Huid & Hsc & _).
  apply final_of_aggregates in Hfin as (_ & Hr & _).
  by rewrite Huid, Hsc, Hr.
Qed.

Lemma feature_rows_carry_their_profile_witness :
  exists sel,
    Etl.load_selected_ids Sample.selected_ids_list = Ok sel
    /\ length (selected_records sel Sample.all_users)
       = length (Etl.output_df Sample.run_outputs).
Proof.
  destruct (feature_rows_carry_their_profile Readers.json_loads Readers.to_datetime 0
              Sample.selected_ids_list Sample.all_users Sample.tweet_lines
              Sample.run_outputs sample_run_ok) as (sel & Hsel & Hrows).
  exists sel. split; [exact Hsel |]. by eapply Forall2_length.
Defined.

(** ** The intermediate table (lines 104-131) *)

Lemma tweet_step_outcome json_loads (sel : gset Z) (line : string)
    (o' : option Etl.tweet_row) :
  Etl.tweet_step json_loads sel line = Ok o' ->
  match o' with
  | Some r =>
      author_of json_loads line = Ok (Etl.t_user_id r)
      /\ (Etl.t_user_id r ∈ sel)
      /\ is_None (Etl.t_like_count r) = false
      /\ is_None (Etl.t_reply_count r) = false
      /\ exists o,
           Etl.parse_line json_loads line = JObj o
           /\ assoc "id" o = Some (Etl.t_tweet_id r)
           /\ assoc "text" o = Some (Etl.t_tweet_text r)
           /\ assoc "created_at" o = Some (Etl.t_created_at r)
  | None =>
      match author_of json_loads line with
      | Ok a => a ∉ sel
      | Err _ => True
      end
  end.
Proof.
  unfold Etl.tweet_step, author_of.
  destruct (is_None (Etl.parse_line json_loads line)) eqn:Hnone;
    [by intros [= <-] |].
  destruct (getitem _ "author_id") as [a |] eqn:Ha; [| done]. simpl.
  destruct (py_int a) as [i |]; [| done]. simpl.
  case_bool_decide as Hin; [| by intros [= <-]].
  destruct (Etl.parse_line json_loads line) as [| | | | | | o]; try done.
  simpl. intros H.
  bind_inv H as lc Hlc. bind_inv H as rc Hrc. bind_inv H as tid Htid.
  bind_inv H as text Htext. bind_inv H as created Hcreated. injection H as <-.
  simpl. split; [done |]. split; [done |].
  split; [by destruct lc |]. split; [by destruct rc |].
  exists o. split; [done |].
  destruct (assoc "id" o); [| done]. destruct (assoc "text" o); [| done].
  destruct (assoc "created_at" o); [| done].
  injection Htid as <-. injection Htext as <-. by injection Hcreated as <-.
Qed.

Lemma omap_length_le {A B} (f : A -> option B) (l : list A) :
  (length (omap f l) <= length l)%nat.
Proof.
  induction l as [| x l IH]; [done |]. unfold omap in *. simpl.
  destruct (f x); simpl; lia.
Qed.

Lemma tweets_loop_rows json_loads (sel : gset Z) (lines : list string)
    (rows : list Etl.tweet_row) :
  Etl.tweets_loop json_loads sel lines = Ok rows ->
  List.map Etl.t_user_id rows
  = List.filter (fun a => bool_decide (a ∈ sel)) (stream_authors json_loads lines)
  /\ forall t, t ∈ rows -> exists line,
       (line ∈ lines) /\ Etl.tweet_step json_loads sel line = Ok (Some t).
Proof.
  unfold Etl.tweets_loop. intros H. bind_inv H as steps Hsteps. injection H as <-.
  split.
  - apply for_each_ok in Hsteps. unfold stream_authors.
    induction Hsteps as [| line o' lines steps Hstep _ IH]; [done |].
    apply tweet_step_outcome in Hstep. unfold omap in *. simpl.
    destruct o' as [r |]; simpl.
    + destruct Hstep as (-> & Hin & _). simpl.
      rewrite bool_decide_eq_true_2 by done. by rewrite IH.
    + destruct (author_of json_loads line) as [a |]; simpl; [| done].
      by rewrite bool_decide_eq_false_2.
  - intros t Ht. apply list_elem_of_omap in Ht as (o' & Ho' & Heq).
    simpl in Heq. subst o'.
    destruct (for_each_elem _ _ _ _ Hsteps Ho') as (line & Hline & Hstep).
    by exists line.
Qed.

(** X11.  The intermediate table has one row per line of the stream that
    holds a record of a selected author, in stream order, and no other
    row: its user ids are the authors of the record lines, cut down to the
    selected ones. *)
Theorem intermediate_is_selected_stream json_loads to_datetime now ids users lines out :
  Etl.main json_loads to_datetime now ids users lines = Ok out ->
  exists sel,
    Etl.load_selected_ids ids = Ok sel
    /\ List.map Etl.t_user_id (Etl.intermediate out)
       = List.filter (fun a => bool_decide (a ∈ sel)) (stream_authors json_loads lines)
    /\ (forall t, t ∈ Etl.intermediate out -> Etl.t_user_id t ∈ sel)
    /\ (length (Etl.intermediate out) <= length lines)%nat.
Proof.
  intros H.
  destruct (main_parts _ _ _ _ _ _ _ H)
    as (sel & data & e & dated & sized & Hsel & _ & Hloop & _).
  exists sel. split; [done |].
  destruct (tweets_loop_rows _ _ _ _ Hloop) as [Hmap Horigin].
  split; [done |]. split.
  - intros t Ht. destruct (Horigin t Ht) as (line & _ & Hstep).
    by apply tweet_step_outcome in Hstep as (_ & ? & _).
  - rewrite <- (length_map Etl.t_user_id), Hmap.
    etransitivity; [apply List.filter_length_le |].
    unfold stream_authors. apply omap_length_le.
Qed.

Lemma intermediate_is_selected_stream_witness :
  stream_authors Readers.json_loads Sample.tweet_lines = [1; 1; 9]
  /\ List.map Etl.t_user_id (Etl.intermediate Sample.run_outputs) = [1; 1].
Proof.
  split; [vm_compute; reflexivity |].
  destruct (intermediate_is_selected_stream Readers.json_loads Readers.to_datetime 0
              Sample.selected_ids_list Sample.all_users Sample.tweet_lines
              Sample.run_outputs sample_run_ok) as (sel & Hsel & Hmap & _).
  rewrite Hmap. vm_compute in Hsel. injection Hsel as <-.
  vm_compute. reflexivity.
Defined.

(** X12.  Every row of the intermediate table comes from a line of the
    stream that parses to a record: its tweet id, text and date are the
    record's [id], [text] and [created_at], and its like and reply counts
    are never null (a count that is missing or null is 0). *)
Theorem intermediate_rows_from_records json_loads to_datetime now ids users lines out t :
  Etl.main json_loads to_datetime now ids users lines = Ok out ->
  t ∈ Etl.intermediate out ->
  is_None (Etl.t_like_count t) = false
  /\ is_None (Etl.t_reply_count t) = false
  /\ exists line o,
       (line ∈ lines)
       /\ Etl.parse_line json_loads line = JObj o
       /\ author_of json_loads line = Ok (Etl.t_user_id t)
       /\ assoc "id" o = Some (Etl.t_tweet_id t)
       /\ assoc "text" o = Some (Etl.t_tweet_text t)
       /\ assoc "created_at" o = Some (Etl.t_created_at t).
Proof.
  intros H Ht.
  destruct (main_parts _ _ _ _ _ _ _ H)
    as (sel & data & e & dated & sized & _ & _ & Hloop & _).
  destruct (tweets_loop_rows _ _ _ _ Hloop) as [_ Horigin].
  destruct (Horigin t Ht) as (line & Hline & Hstep).
  apply tweet_step_outcome in Hstep as (Ha & _ & Hl & Hr & o & Hp & Hid & Htext & Hc).
  split; [done |]. split; [done |]. by exists line, o.
Qed.

Lemma intermediate_rows_from_records_witness :
  List.map Etl.t_like_count (Etl.intermediate Sample.run_outputs) = [JInt 3; JInt 0]
  /\ Forall (fun t => is_None (Etl.t_like_count t) = false
                      /\ is_None (Etl.t_reply_count t) = false)
       (Etl.intermediate Sample.run_outputs).
Proof.
  split; [reflexivity |]. apply Forall_forall. intros t Ht.
  destruct (intermediate_rows_from_records Readers.json_loads Readers.to_datetime 0
              Sample.selected_ids_list Sample.all_users Sample.tweet_lines
              Sample.run_outputs t sample_run_ok Ht) as (Hl & Hr & _).
  by split.
Defined.

(** ** The reference date and the clock (lines 146-153) *)

Lemma reference_date_clock to_datetime (now now' : Z) (rows : list Etl.tweet_row) :
  Etl.reference_date to_datetime now rows = Etl.reference_date to_datetime now' rows.
Proof.
  unfold Etl.reference_date. destruct (decide (rows = [])) as [| Hne]; [done |].
  destruct (for_each _ rows) as [dated |] eqn:Hdated; simpl; [| done].
  assert (Hnil : dated <> []).
  { intros ->. apply for_each_ok in Hdated. inversion Hdated. by subst. }
  by rewrite bool_decide_eq_false_2.
Qed.

(** X13.  The clock is never looked at: two runs on the same inputs at
    different times give the same result, be it tables or an exception. *)
Theorem clock_never_read json_loads to_datetime (now now' : Z) ids users lines :
  Etl.main json_loads to_datetime now ids users lines
  = Etl.main json_loads to_datetime now' ids users lines.
Proof.
  unfold Etl.main.
  destruct (Etl.load_selected_ids ids) as [sel |]; simpl; [| done].
  destruct (Etl.users_loop sel users) as [data |]; simpl; [| done].
  destruct (Etl.tweets_loop json_loads sel lines) as [rows |]; simpl; [| done].
  by rewrite (reference_date_clock to_datetime now now').
Qed.

(** X14.  In a run that completes, the reference date against which every
    account age is counted is the latest of the parsed [created_at] of the
    rows of the intermediate table: no parsed date is later, and it is the
    date of one of the rows. *)
Theorem reference_date_is_latest_tweet json_loads to_datetime now ids users lines out :
  Etl.main json_loads to_datetime now ids users lines = Ok out ->
  exists e,
    (forall r, r ∈ Etl.final_df out ->
       Etl.account_age_days r
       = Etl.clip_lower 1 (Etl.days_between e (Etl.user_created_at_dt r)))
    /\ (forall t d, t ∈ Etl.intermediate out ->
          Etl.cell_datetime to_datetime (Etl.t_created_at t) = Ok (Some d) ->
          exists m, e = Some m /\ d <= m)
    /\ (forall m, e = Some m ->
          exists t, (t ∈ Etl.intermediate out)
            /\ Etl.cell_datetime to_datetime (Etl.t_created_at t) = Ok (Some m)).
Proof.
  intros H.
  destruct (main_parts _ _ _ _ _ _ _ H)
    as (sel & data & e & dated & sized & _ & _ & _ & Href & _ & Hrows & _).
  destruct (reference_date_is_max _ _ _ _ _ Href)
    as (_ & Hfst & Hcells & _ & Hupper & Helem).
  exists e. split; [| split].
  - intros r Hr. destruct (final_row_origin _ _ _ Hrows Hr) as (u & _ & g & Hfin & _).
    by apply final_of_facts in Hfin as (_ & _ & _ & _ & ? & _).
  - intros t d Ht Hd. apply Hupper.
    rewrite <- Hfst in Ht. apply list_elem_of_In, in_map_iff in Ht as (p & <- & Hp).
    apply list_elem_of_In in Hp. pose proof Hp as Hcell.
    eapply Forall_forall in Hcell; [| exact Hcells]. simpl in Hcell.
    rewrite Hd in Hcell. injection Hcell as Hcell.
    apply list_elem_of_In, in_map_iff. exists p. split; [done |].
    by apply list_elem_of_In.
  - intros m Hm. apply Helem in Hm.
    apply list_elem_of_In, in_map_iff in Hm as (p & Hsnd & Hp).
    apply list_elem_of_In in Hp. exists p.1. split.
    + rewrite <- Hfst. apply list_elem_of_In, in_map. by apply list_elem_of_In.
    + eapply Forall_forall in Hcells; [| exact Hp]. simpl in Hcells.
      by rewrite Hcells, Hsnd.
Qed.

Lemma reference_date_is_latest_tweet_witness :
  exists e,
    Etl.account_age_days More.user1_row
    = Etl.clip_lower 1 (Etl.days_between e (Etl.user_created_at_dt More.user1_row))
    /\ forall t, t ∈ Etl.intermediate Sample.run_outputs ->
         forall d, Etl.cell_datetime Readers.to_datetime (Etl.t_created_at t) = Ok (Some d) ->
         exists m, e = Some m /\ d <= m.
Proof.
  destruct (reference_date_is_latest_tweet Readers.json_loads Readers.to_datetime 0
              Sample.selected_ids_list Sample.all_users Sample.tweet_lines
              Sample.run_outputs sample_run_ok) as (e & Hage & Hupper & _).
  exists e. split; [exact (Hage _ user1_row_in_run) |].
  intros t Ht d Hd. exact (Hupper t d Ht Hd).
Defined.

(** ** The account age (lines 196-204) *)

(** X15.  When the user's creation date and the reference date are both
    there, the account age is the number of whole days between them,
    rounded down, once the account is a day old; below two days, and for
    an account created after the reference date, it is 1. *)
Theorem account_age_is_whole_days json_loads to_datetime now ids users lines out r :
  Etl.main json_loads to_datetime now ids users lines = Ok out ->
  r ∈ Etl.final_df out ->
  exists dated e,
    Etl.reference_date to_datetime now (Etl.intermediate out) = Ok (dated, e)
    /\ forall c m, Etl.user_created_at_dt r = Some c -> e = Some m ->
         exists a, Etl.account_age_days r = Some a
           /\ (m - c < 2 * Etl.day_ns -> a = 1)
           /\ (Etl.day_ns <= m - c ->
               a * Etl.day_ns <= m - c < (a + 1) * Etl.day_ns).
Proof.
  intros H Hr.
  destruct (main_parts _ _ _ _ _ _ _ H)
    as (sel & data & e & dated & sized & _ & _ & _ & Href & _ & Hrows & _).
  exists dated, e. split; [done |]. intros c m Hc ->.
  destruct (final_row_origin _ _ _ Hrows Hr) as (u & _ & g & Hfin & _).
  apply final_of_facts in Hfin as (_ & _ & _ & _ & Hage & _).
  rewrite Hage, Hc. simpl. eexists. split; [reflexivity |].
  assert (Hday : 0 < Etl.day_ns) by done.
  set (d := Etl.day_ns) in *. set (x := m - c).
  pose proof (Z.div_mod x d ltac:(lia)) as Hdiv.
  pose proof (Z.mod_pos_bound x d Hday) as Hmod.
  split; intros Hx.
  - assert (x / d < 2) by (apply Z.div_lt_upper_bound; lia). lia.
  - assert (1 <= x / d) by (apply Z.div_le_lower_bound; lia).
    rewrite Z.max_r by lia. nia.
Qed.

Lemma account_age_is_whole_days_witness :
  Etl.user_created_at_dt More.user1_row = Some 1578052800000000000
  /\ Etl.account_age_days More.user1_row = Some 1.
Proof.
  split; [reflexivity |].
  destruct (account_age_is_whole_days Readers.json_loads Readers.to_datetime 0
              Sample.selected_ids_list Sample.all_users Sample.tweet_lines
              Sample.run_outputs More.user1_row sample_run_ok user1_row_in_run)
    as (dated & e & Href & Hage).
  vm_compute in Href. injection Href as _ <-.
  destruct (Hage 1578052800000000000 1578052800000000000 eq_refl eq_refl)
    as (a & Ha & Hone & _).
  rewrite Ha. f_equal. apply Hone. done.
Defined.

(** X16.  A selected user whose record has no [created_at] (or a null
    one), beside users that have one, keeps its row: the parsed date is
    NaT, the account age is NaN and is not clipped to 1, and the daily rate
    is NaN. *)
Theorem undated_user_has_no_age json_loads to_datetime now ids users lines out r :
  Etl.main json_loads to_datetime now ids users lines = Ok out ->
  r ∈ Etl.final_df out ->
  (exists r' c, (r' ∈ Etl.final_df out) /\ Etl.user_created_at_dt r' = Some c) ->
  Etl.user_created_at r = JNull ->
  Etl.user_created_at_dt r = None
  /\ Etl.account_age_days r = None
  /\ Etl.avg_tweets_per_day r = PrimFloat.nan
  /\ Etl.o_avg_tweets_per_day (Etl.project r) = PrimFloat.nan.
Proof.
  intros H Hr _ Hnull.
  destruct (main_parts _ _ _ _ _ _ _ H)
    as (sel & data & e & dated & sized & _ & _ & _ & _ & _ & Hrows & _).
  destruct (final_row_origin _ _ _ Hrows Hr) as (u & _ & g & Hfin & _).
  pose proof (final_of_aggregates _ _ _ _ _ Hfin) as (_ & _ & Hcreated & _).
  apply final_of_facts in Hfin as (_ & _ & _ & Hdt & Hage & Hrate & _).
  rewrite <- Hcreated, Hnull in Hdt. simpl in Hdt.
  rewrite Hdt in Hage. simpl. rewrite Hrate, Hage.
  unfold Etl.days_between. by destruct e.
Qed.

Lemma undated_user_has_no_age_witness :
  Sample.run More.users_undated Sample.tweet_lines = Ok More.undated_outputs
  /\ Etl.user_created_at More.undated_row = JNull
  /\ Etl.account_age_days More.undated_row = None
  /\ Etl.avg_tweets_per_day More.undated_row = PrimFloat.nan.
Proof.
  assert (H : Sample.run More.users_undated Sample.tweet_lines = Ok More.undated_outputs)
    by (vm_compute; reflexivity).
  split; [exact H |]. split; [reflexivity |].
  assert (Hr : More.undated_row ∈ Etl.final_df More.undated_outputs)
    by (apply list_elem_of_In; vm_compute; left; reflexivity).
  assert (Hdated : exists r' c, (r' ∈ Etl.final_df More.undated_outputs)
                                /\ Etl.user_created_at_dt r' = Some c).
  { exists More.dated_row, 1577750400000000000. split; [| reflexivity].
    apply list_elem_of_In. vm_compute. right. left. reflexivity. }
  destruct (undated_user_has_no_age Readers.json_loads Readers.to_datetime 0
              Sample.selected_ids_list More.users_undated Sample.tweet_lines
              More.undated_outputs More.undated_row H Hr Hdated eq_refl)
    as (_ & Hage & Hrate & _).
  by split.
Defined.

(** ** No selected profile (lines 81, 179) *)

Lemma tables_of_rows to_datetime (now : Z) (rows : list Etl.tweet_row) :
  rows <> [] ->
  Forall (tweet_row_ok to_datetime) rows ->
  exists dated e sized tf,
    Etl.reference_date to_datetime now rows = Ok (dated, e)
    /\ for_each (fun r : Etl.tweet_row * option Z =>
                   let! n := Etl.text_len (Etl.t_tweet_text r.1) in Ok (r.1, n)) dated
       = Ok sized
    /\ for_each (fun k => Etl.aggregate k sized)
         (group_keys (List.map (fun r => Etl.t_user_id r.1) sized)) = Ok tf.
Proof.
  intros Hne Hok.
  destruct (for_each_total
              (fun r => let! dt := Etl.cell_datetime to_datetime (Etl.t_created_at r) in
                        Ok (r, dt))
              (fun d => tweet_row_ok to_datetime d.1) rows) as (dated & Hdated & Hd_ok).
  { eapply Forall_impl; [exact Hok |]. intros r Hr.
    pose proof Hr as (Hc & _).
    destruct (Etl.cell_datetime _ _) as [dt |] eqn:Hdt; [| done].
    exists (r, dt). by split. }
  destruct (for_each_total
              (fun r : Etl.tweet_row * option Z =>
                 let! n := Etl.text_len (Etl.t_tweet_text r.1) in Ok (r.1, n))
              (fun s => tweet_row_ok to_datetime s.1) dated) as (sized & Hsized & Hs_ok).
  { eapply Forall_impl; [exact Hd_ok |]. intros d Hd.
    pose proof Hd as (_ & Hlen & _).
    destruct (Etl.text_len _) as [n |] eqn:Hn; [| done].
    exists (d.1, n). by split. }
  destruct (for_each_total (fun k => Etl.aggregate k sized) (fun _ => True)
              (group_keys (List.map (fun r => Etl.t_user_id r.1) sized)))
    as (tf & Htf & _).
  { apply Forall_forall. intros k _. unfold Etl.aggregate.
    set (g := List.filter (fun r : Etl.tweet_row * Z => Etl.t_user_id r.1 =? k) sized).
    assert (Hg : Forall (fun s => tweet_row_ok to_datetime s.1) g).
    { apply Forall_forall. intros x Hx. apply list_elem_of_In in Hx.
      apply filter_In in Hx as [Hx _]. apply list_elem_of_In in Hx.
      by eapply Forall_forall in Hs_ok. }
    destruct (for_each_total (fun r : Etl.tweet_row * Z => Etl.int64_cell (Etl.t_like_count r.1))
                (fun _ => True) g) as (likes & -> & _).
    { eapply Forall_impl; [exact Hg |]. intros x (_ & _ & Hl & _).
      destruct (Etl.int64_cell _) as [n |]; [by exists n | done]. }
    destruct (for_each_total (fun r : Etl.tweet_row * Z => Etl.int64_cell (Etl.t_reply_count r.1))
                (fun _ => True) g) as (replies & -> & _).
    { eapply Forall_impl; [exact Hg |]. intros x (_ & _ & _ & Hr).
      destruct (Etl.int64_cell _) as [n |]; [by exists n | done]. }
    simpl. by eexists. }
  eexists dated, _, sized, tf. split; [| by split].
  unfold Etl.reference_date. destruct (decide (rows = [])); [done |].
  by rewrite Hdated.
Qed.

(** X17.  When no record of the profile source is selected while the
    stream holds tweets of selected authors, the frame of users has no
    column and the run stops with [KeyError] at the join, after the
    intermediate table and the aggregates have been computed. *)
Theorem no_selected_profile_faults json_loads to_datetime now ids users lines sel rows :
  Etl.load_selected_ids ids = Ok sel ->
  Etl.users_loop sel users = Ok [] ->
  Etl.tweets_loop json_loads sel lines = Ok rows ->
  rows <> [] ->
  Forall (tweet_row_ok to_datetime) rows ->
  Etl.main json_loads to_datetime now ids users lines = Err KeyError.
Proof.
  intros Hsel Hdata Hrows Hne Hok. unfold Etl.main.
  rewrite Hsel. simpl. rewrite Hdata. simpl. rewrite Hrows. simpl.
  destruct (tables_of_rows to_datetime now rows Hne Hok)
    as (dated & e & sized & tf & -> & Hsized & Htf).
  simpl. rewrite Hsized. simpl. by rewrite Htf.
Qed.

Lemma no_selected_profile_faults_witness :
  Etl.load_selected_ids More.ids_without_profile = Ok More.nine
  /\ Etl.users_loop More.nine Sample.all_users = Ok []
  /\ Etl.tweets_loop Readers.json_loads More.nine Sample.tweet_lines
     = Ok More.rows_of_nine
  /\ More.rows_of_nine <> []
  /\ Etl.main Readers.json_loads Readers.to_datetime 0
       More.ids_without_profile Sample.all_users Sample.tweet_lines = Err KeyError.
Proof.
  assert (H0 : Etl.load_selected_ids More.ids_without_profile = Ok More.nine)
    by reflexivity.
  assert (H1 : Etl.users_loop More.nine Sample.all_users = Ok [])
    by (vm_compute; reflexivity).
  assert (H2 : Etl.tweets_loop Readers.json_loads More.nine Sample.tweet_lines
               = Ok More.rows_of_nine) by (vm_compute; reflexivity).
  assert (H3 : More.rows_of_nine <> []) by (intros Hnil; discriminate Hnil).
  assert (H4 : Forall (tweet_row_ok Readers.to_datetime) More.rows_of_nine).
  { apply Forall_cons. split; [| apply Forall_nil; exact I].
    unfold tweet_row_ok. repeat split; vm_compute; reflexivity. }
  split; [exact H0 |]. split; [exact H1 |]. split; [exact H2 |]. split; [exact H3 |].
  exact (no_selected_profile_faults Readers.json_loads Readers.to_datetime 0
           More.ids_without_profile Sample.all_users Sample.tweet_lines
           More.nine More.rows_of_nine H0 H1 H2 H3 H4).
Defined.

(** ** A whole run on records *)


(** ** The layout of a stream line *)

Lemma lstrip_all_space (s : string) : all_space s = true -> lstrip s = "".
Proof.
  induction s as [| c s IH]; simpl; [done |].
  destruct (is_space c); [exact IH | done].
Qed.

Lemma lstrip_app (a b : string) :
  lstrip (a ++ b) = if all_space a then lstrip b else (lstrip a ++ b)%string.
Proof.
  induction a as [| c a IH]; [done |].
  change (String c a ++ b)%string with (String c (a ++ b)%string).
  simpl. destruct (is_space c); [exact IH | done].
Qed.

Lemma rstrip_all_space (s : string) : all_space s = true -> rstrip s = "".
Proof.
  induction s as [| c s IH]; simpl; [done |].
  destruct (is_space c); simpl; [| done].
  intros H. by rewrite (IH H).
Qed.

Lemma rstrip_app (a b : string) :
  all_space b = true -> rstrip (a ++ b) = rstrip a.
Proof.
  intros Hb. induction a as [| c a IH]; [by apply rstrip_all_space |].
  change (String c a ++ b)%string with (String c (a ++ b)%string).
  simpl. by rewrite IH.
Qed.

Lemma strip_padded (pre s post : string) :
  all_space pre = true -> all_space post = true ->
  strip (pre ++ s ++ post) = strip s.
Proof.
  intros Hpre Hpost. unfold strip.
  rewrite lstrip_app, Hpre, lstrip_app.
  destruct (all_space s) eqn:Hs.
  - by rewrite (lstrip_all_space post Hpost), (lstrip_all_space s Hs).
  - by apply rstrip_app.
Qed.

Lemma lstrip_clean (s : string) : space_first s = false -> lstrip s = s.
Proof. destruct s as [| c s]; simpl; [done |]. by intros ->. Qed.

Lemma rstrip_clean (s : string) : space_last s = false -> rstrip s = s.
Proof.
  induction s as [| c s IH]; [done |].
  destruct s as [| b s]; simpl.
  - by intros ->.
  - intros H. simpl in IH. by rewrite (IH H).
Qed.

Lemma strip_clean (s : string) :
  space_first s = false -> space_last s = false -> strip s = s.
Proof.
  intros Hf Hl. unfold strip. rewrite (lstrip_clean s Hf). by apply rstrip_clean.
Qed.

Lemma space_first_comma (s : string) :
  space_first s = false -> space_first (s ++ ",") = false.
Proof. by destruct s. Qed.

Lemma space_last_comma (s : string) : space_last (s ++ ",") = false.
Proof.
  induction s as [| c s IH]; [done |].
  change (String c s ++ ",")%string with (String c (s ++ ",")%string).
  destruct s as [| b s]; [done |]. exact IH.
Qed.

Lemma endswith_comma (s : string) : endswith "," (s ++ ",") = true.
Proof.
  induction s as [| c s IH]; [done |].
  change (String c s ++ ",")%string with (String c (s ++ ",")%string).
  destruct s as [| b s]; [done |]. exact IH.
Qed.

Lemma drop_last_comma (s : string) : drop_last (s ++ ",") = s.
Proof.
  induction s as [| c s IH]; [done |].
  change (String c s ++ ",")%string with (String c (s ++ ",")%string).
  destruct s as [| b s]; [done |].
  change (String c (drop_last (String b s ++ ",")) = String c (String b s)).
  by rewrite IH.
Qed.

Lemma cleaned_padded (pre s post : string) :
  all_space pre = true -> all_space post = true ->
  space_first s = false -> space_last s = false -> endswith "," s = false ->
  cleaned (pre ++ s ++ post) = s /\ cleaned (pre ++ (s ++ ",") ++ post) = s.
Proof.
  intros Hpre Hpost Hf Hl Hc. unfold cleaned.
  rewrite !strip_padded by done.
  rewrite (strip_clean s Hf Hl), Hc.
  rewrite (strip_clean (s ++ ",")) by (by apply space_first_comma || apply space_last_comma).
  by rewrite endswith_comma, drop_last_comma.
Qed.

(** X19. Whitespace around a stream line and one comma after its text do
    not change what is read from it: for a text without whitespace at its
    ends and without a comma at its end, the line made of whitespace, the
    text, an optional comma and whitespace parses to what the text alone
    parses to, and the loop body does with it what it does with the text. *)
Theorem line_layout_is_ignored (json_loads : string -> option json)
    (selected_ids : gset Z) (pre s post : string) :
  all_space pre = true -> all_space post = true ->
  space_first s = false -> space_last s = false -> endswith "," s = false ->
  Etl.parse_line json_loads (pre ++ s ++ post) = Etl.parse_line json_loads s
  /\ Etl.parse_line json_loads (pre ++ (s ++ ",") ++ post)
     = Etl.parse_line json_loads s
  /\ Etl.tweet_step json_loads selected_ids (pre ++ s ++ post)
     = Etl.tweet_step json_loads selected_ids s
  /\ Etl.tweet_step json_loads selected_ids (pre ++ (s ++ ",") ++ post)
     = Etl.tweet_step json_loads selected_ids s.
Proof.
  intros Hpre Hpost Hf Hl Hc.
  destruct (cleaned_padded pre s post Hpre Hpost Hf Hl Hc) as [H1 H2].
  destruct (cleaned_padded "" s "" eq_refl eq_refl Hf Hl Hc) as [H0 _].
  assert (Hs : cleaned s = s).
  { rewrite <- H0 at 2. unfold cleaned. by rewrite (strip_padded "" s ""). }
  assert (P1 : Etl.parse_line json_loads (pre ++ s ++ post)
               = Etl.parse_line json_loads s)
    by (by rewrite !parse_line_cleaned, H1, Hs).
  assert (P2 : Etl.parse_line json_loads (pre ++ (s ++ ",") ++ post)
               = Etl.parse_line json_loads s)
    by (by rewrite !parse_line_cleaned, H2, Hs).
  split; [exact P1 |]. split; [exact P2 |].
  unfold Etl.tweet_step. by rewrite P1, P2.
Qed.

Lemma line_layout_is_ignored_witness :
  Etl.parse_line Readers.json_loads ("  " ++ (More.bare_line ++ ",") ++ " ")
  = Etl.parse_line Readers.json_loads More.bare_line.
Proof.
  apply (line_layout_is_ignored Readers.json_loads ∅ "  " More.bare_line " ");
    vm_compute; reflexivity.
Defined.

(** ** The join with the split and label tables *)

Section AugmentJoin.

Context {value : Type} (to_numeric : string -> option Z).

#[local] Abbreviation feature_row := (Augment.feature_row value).
#[local] Abbreviation aug_row := (Augment.aug_row value).
#[local] Abbreviation augment := (Augment.augment value).
#[local] Abbreviation normalize_key := (Augment.normalize_key to_numeric).
#[local] Abbreviation main := (Augment.main value to_numeric).

Lemma remove_char_app (c : ascii) (a b : string) :
  remove_char c (a ++ b) = (remove_char c a ++ remove_char c b)%string.
Proof.
  induction a as [| x a IH]; [done |].
  change (String x a ++ b)%string with (String x (a ++ b)%string).
  simpl. rewrite IH. by destruct (Ascii.eqb x c).
Qed.

(** X20. Normalizing a key removes the letter u wherever it stands, not
    only in front: a key with a u inside is read as the key without it, and
    a key with a single u is read as the number its other characters
    spell. *)
Theorem every_u_is_removed (s1 s2 : string) :
  normalize_key (s1 ++ String "u" s2) = normalize_key (s1 ++ s2)
  /\ (no_u s1 = true -> no_u s2 = true ->
      normalize_key (s1 ++ String "u" s2) = to_numeric (s1 ++ s2)).
Proof.
  assert (H : normalize_key (s1 ++ String "u" s2) = normalize_key (s1 ++ s2)).
  { unfold Augment.normalize_key. by rewrite !remove_char_app. }
  split; [exact H |].
  intros H1 H2. rewrite H. unfold Augment.normalize_key.
  by rewrite remove_char_app, !remove_char_no_u.
Qed.

Lemma merge_left_weighted {L R A} (matches : L -> R -> bool)
    (p : L -> A) (g : L -> nat) (left : list L) (right : list R) :
  flat_map (fun m => repeat (p m.1) (g m.1)) (merge_left matches left right)
  = flat_map (fun l =>
      repeat (p l) (Nat.max 1 (length (List.filter (matches l) right)) * g l)) left.
Proof.
  induction left as [| l left IH]; [done |].
  assert (Hrs : forall rs : list R,
            flat_map (fun m : L * option R => repeat (p m.1) (g m.1))
              (List.map (fun r => (l, Some r)) rs)
            = repeat (p l) (length rs * g l)).
  { induction rs as [| x rs IHrs]; [done |].
    simpl. by rewrite IHrs, repeat_app. }
  rewrite merge_left_cons, flat_map_app, IH. simpl. f_equal.
  destruct (List.filter (matches l) right) as [| r ms].
  - simpl. by rewrite app_nil_r, Nat.add_0_r.
  - exact (Hrs (r :: ms)).
Qed.

Lemma map_as_repeats {A B} (f : A -> B) (l : list A) :
  List.map f l = flat_map (fun x => repeat (f x) 1) l.
Proof. induction l as [| x l IH]; [done |]. simpl. by rewrite IH. Qed.

(** X21. The left joins repeat a feature row once for every pair of a
    split row and a label row that hold its user id, a table without a row
    for the id counting as one: the feature rows of the merged table are the
    input rows, in order, each repeated that many times.  No input row is
    lost, and a user id listed twice in a table brings its row twice. *)
Theorem merged_rows_repeat_per_match (F : list feature_row)
    (S L : list Augment.keyed_row) :
  List.map Augment.features (augment F S L)
  = flat_map (fun f =>
      repeat f (copies (Augment.user_id f) S * copies (Augment.user_id f) L)) F
  /\ (length F <= length (augment F S L))%nat.
Proof.
  assert (H : List.map Augment.features (augment F S L)
              = flat_map (fun f =>
                  repeat f (copies (Augment.user_id f) S
                            * copies (Augment.user_id f) L)) F).
  { unfold Augment.augment. rewrite List.map_map. simpl.
    set (m1 := fun (f : feature_row) (r : Augment.keyed_row) =>
                 Augment.key_match (Augment.user_id f) r.1).
    set (m2 := fun (m : feature_row * option Augment.keyed_row)
                   (r : Augment.keyed_row) =>
                 Augment.key_match (Augment.user_id m.1) r.1).
    rewrite (map_as_repeats (fun m : feature_row * option Augment.keyed_row
                                     * option Augment.keyed_row => m.1.1)).
    rewrite (merge_left_weighted m2 fst (fun _ => 1%nat)).
    rewrite (merge_left_weighted m1 (fun f => f)
               (fun f => (Nat.max 1 (length (List.filter (m1 f) L)) * 1)%nat)).
    apply flat_map_ext. intros f. unfold copies, rows_of_key.
    subst m1. by rewrite Nat.mul_1_r. }
  split; [exact H |].
  rewrite <- (length_map Augment.features), H.
  clear H. induction F as [| f F IH]; [done |].
  simpl. rewrite length_app, repeat_length.
  unfold copies at 1 2. lia.
Qed.

Lemma joined_values_elem (uid : Z) (T : list Augment.keyed_row) (v : string) :
  v ∈ joined_values uid T <->
  exists o : option Augment.keyed_row,
    match o with
    | Some row => (row ∈ T) /\ Augment.key_match uid row.1 = true
    | None => rows_of_key uid T = []
    end
    /\ v = default "unknown" (o ≫= snd).
Proof.
  unfold joined_values.
  assert (Hin : forall row : Augment.keyed_row,
            row ∈ rows_of_key uid T
            <-> (row ∈ T) /\ Augment.key_match uid row.1 = true).
  { intros row. unfold rows_of_key. by rewrite !list_elem_of_In, filter_In. }
  destruct (rows_of_key uid T) as [| r0 rs].
  - rewrite list_elem_of_singleton. split.
    + intros ->. by exists None.
    + intros ([row |] & Ho & ->); [| done].
      apply Hin in Ho. by apply elem_of_nil in Ho.
  - rewrite list_elem_of_In, in_map_iff. split.
    + intros (row & <- & Hrow). exists (Some row). split; [| done].
      by apply Hin, list_elem_of_In.
    + intros ([row |] & Ho & ->); [| done].
      exists row. split; [done |]. by apply list_elem_of_In, Hin.
Qed.

(** X22. The merged table holds exactly the rows made of an input feature
    row, one of the split values the split table gives its user id and one
    of the label values the label table gives it, where a table gives an id
    the value of each of its rows that hold the id, an empty value read as
    unknown, and unknown alone when no row holds the id. *)
Theorem merged_rows_characterized (F : list feature_row)
    (S L : list Augment.keyed_row) (r : aug_row) :
  r ∈ augment F S L <->
  (Augment.features r ∈ F)
  /\ (Augment.split r ∈ joined_values (Augment.user_id (Augment.features r)) S)
  /\ (Augment.label r ∈ joined_values (Augment.user_id (Augment.features r)) L).
Proof.
  rewrite !joined_values_elem.
  unfold Augment.augment. rewrite list_elem_of_In, in_map_iff. split.
  - intros (m & <- & Hm). simpl. apply list_elem_of_In in Hm.
    apply merge_left_elem in Hm as [Hm1 Hl].
    apply merge_left_elem in Hm1 as [Hf Hs].
    split; [done |]. split; [by exists m.1.2 | by exists m.2].
  - destruct r as [f sp lb]. simpl.
    intros (Hf & (o1 & H1 & ->) & (o2 & H2 & ->)).
    exists (f, o1, o2). split; [done |].
    apply list_elem_of_In, merge_left_elem. split; [| done].
    apply merge_left_elem. by split.
Qed.


End AugmentJoin.

(** User 1, listed twice in the split table, has a merged row for each of
    its two splits. *)
Example user_listed_twice :
  List.map (fun r => (Augment.user_id (Augment.features r), Augment.split r))
    (Augment.augment float Sample.df_features More.split_rows_twice [])
  = [(1, "train"); (1, "val"); (7, "unknown"); (9, "unknown"); (12, "unknown")]
  /\ (More.merged_val_row ∈
        Augment.augment float Sample.df_features More.split_rows_twice []).
Proof.
  split; [vm_compute; reflexivity |].
  apply list_elem_of_In. right. left. reflexivity.
Qed.
